(** * excel_manager: a workbook facade over a spreadsheet engine

    Shallow embedding of [src/excel_manager.py] (class [ExcelManager]) and
    the properties its specification states.

    The facade is translated method by method.  The spreadsheet engine it
    delegates to (openpyxl) is an external library; it is modelled here by
    the part of its behaviour the facade calls into:
    - [Workbook()] makes a workbook with one sheet, titled "Sheet";
    - [ws.cell(row, column)] refuses a row or column below 1 and creates the
      cell when the grid has none at the coordinate; [ws[key]] reads the key
      with the engine's coordinate pattern and creates what it returns;
    - column letters run from "A" to "ZZZ" (1 to 18278), without regard to
      case.
    Two things are left to the engine as parameters (class [Engine]): which
    display formats it takes, and how it binds the title of a new sheet.

    Outside the model: the grid is unbounded (the file format's limits on
    rows and columns are not enforced); a value is stored as it is given;
    strings are byte strings; [save] and the status lines that [__init__]
    prints are left out.

    A computation is a function from the state of the mutated object to a
    result (a value or a raised exception) and the state it leaves, so that
    what a failing call has already changed stays visible. *)

From Stdlib Require Import ZArith String Ascii List Lia DecimalString.
From stdpp Require Import base tactics option list gmap strings.

Local Open Scope string_scope.
Local Open Scope Z_scope.

(** ** Python values and exceptions *)

(** The payloads a cell holds ([Any] in the source): the scalar variants the
    usage script stores.  The engine's own coercions of a bound value (string
    truncation, rejection of control characters) are outside this model:
    binding a value stores it as it is. *)
Inductive pyvalue :=
| PyNone
| PyBool (b : bool)
| PyInt (z : Z)
| PyStr (s : string).

(** [Union[int, str]]: a column given as a number or as letters. *)
Inductive column_arg :=
| ColInt (z : Z)
| ColStr (s : string).

(** Exception messages, kept structured: a constructor per message template
    of the source (first group) and per engine message (second group); an
    f-string that embeds [str(e)] keeps the inner message. *)
Inductive message :=
| SheetAlreadyExists (sheet_name : string)
| SheetDoesNotExist (sheet_name : string)
| InvalidColumnNumber (col_idx : Z)
| InvalidRowNumber (row : Z)
| InvalidColumnSpec (inner : message)
| InvalidCellReference (cell_reference : string) (inner : message)
| InvalidNumberFormat (number_format : string) (inner : message)
| RowNumbersBelowOne
| EndRowBeforeStartRow
| ColumnNumbersBelowOne
| EndColumnBeforeStartColumn
| InvalidRangeSpec (inner : message)
| FileLoadError (inner : message)
| NotAColumnName (col : string)
| InvalidColumnIndex (idx : Z)
| NotACoordinateOrRange (key : string)
| RowOrColumnBelowOne
| WorksheetDoesNotExist (key : string)
| TupleHasNoAttribute (attr : string)
| EngineMessage (text : string).

Inductive exn :=
| ValueError (m : message)
| KeyError (m : message)
| IndexError (m : message)
| AttributeError (m : message)
| Exception (m : message).

Definition str (e : exn) : message :=
  match e with
  | ValueError m | KeyError m | IndexError m | AttributeError m | Exception m => m
  end.

Inductive result (A : Type) :=
| Ok (a : A)
| Raise (e : exn).
Arguments Ok {A} a.
Arguments Raise {A} e.

(** The error taxonomy of the specification, read off the facade's message
    templates (every facade error is a Python [ValueError]; only the message
    tells the kinds apart). *)
Inductive error_kind :=
| DuplicateSheetError
| UnknownSheetError
| InvalidAddressError
| InvalidRangeError
| InvalidFormatError.

Definition classify (e : exn) : option error_kind :=
  match e with
  | ValueError (SheetAlreadyExists _) => Some DuplicateSheetError
  | ValueError (SheetDoesNotExist _) => Some UnknownSheetError
  | ValueError (InvalidColumnSpec _) => Some InvalidAddressError
  | ValueError (InvalidCellReference _ _) => Some InvalidAddressError
  | ValueError (InvalidRangeSpec _) => Some InvalidRangeError
  | ValueError (InvalidNumberFormat _ _) => Some InvalidFormatError
  | _ => None
  end.

(** ** State and exceptions

    A computation over a mutable object of type [S]: it returns or raises,
    and in both cases hands back the object as mutated so far (a Python
    exception does not undo earlier assignments). *)
Definition St (S A : Type) : Type := S → result A * S.

Global Instance St_ret {S} : MRet (St S) := λ A a s, (Ok a, s).
Global Instance St_bind {S} : MBind (St S) := λ A B f m s,
  match m s with
  | (Ok a, s') => f a s'
  | (Raise e, s') => (Raise e, s')
  end.

Global Instance St_fmap {S} : FMap (St S) := λ A B f m s,
  match m s with
  | (Ok a, s') => (Ok (f a), s')
  | (Raise e, s') => (Raise e, s')
  end.

Definition raise {S A} (e : exn) : St S A := λ s, (Raise e, s).
Definition gets {S A} (f : S → A) : St S A := λ s, (Ok (f s), s).
Definition modify {S} (f : S → S) : St S unit := λ s, (Ok tt, f s).
Definition lift {S A} (r : result A) : St S A := λ s, (r, s).

(** [try: body  except <kinds> as e: handler e]; [catches e] tells whether
    the clause applies. *)
Definition try_except {S A} (body : St S A) (catches : exn → bool)
    (handler : exn → St S A) : St S A := λ s,
  match body s with
  | (Ok a, s') => (Ok a, s')
  | (Raise e, s') => if catches e then handler e s' else (Raise e, s')
  end.

Definition is_ValueError (e : exn) : bool :=
  match e with ValueError _ => true | _ => false end.
Definition is_ValueError_or_KeyError (e : exn) : bool :=
  match e with ValueError _ | KeyError _ => true | _ => false end.

(** [for x in xs: body x] *)
Fixpoint for_each {S A} (xs : list A) (body : A → St S unit) : St S unit :=
  match xs with
  | [] => mret tt
  | x :: rest => body x ;; for_each rest body
  end.

(** A comprehension whose element expression has effects. *)
Fixpoint for_collect {S A B} (xs : list A) (body : A → St S B) : St S (list B) :=
  match xs with
  | [] => mret []
  | x :: rest => y ← body x; ys ← for_collect rest body; mret (y :: ys)
  end.

(** [enumerate(xs, start)] *)
Fixpoint enumerate {A} (xs : list A) (start : Z) : list (Z * A) :=
  match xs with
  | [] => []
  | x :: rest => (start, x) :: enumerate rest (start + 1)
  end.

(** [range(lo, hi + 1)] *)
Definition range_incl (lo hi : Z) : list Z := seqZ lo (hi + 1 - lo).

(** ** Engine: column letters

    [openpyxl.utils.column_index_from_string] and [get_column_letter].
    Strings are byte strings and [upper()] acts on the ASCII letters. *)

Definition code (ch : ascii) : Z := Z.of_N (N_of_ascii ch).

Definition is_upper (ch : ascii) : bool := (65 <=? code ch) && (code ch <=? 90).
Definition is_lower (ch : ascii) : bool := (97 <=? code ch) && (code ch <=? 122).
Definition is_letter (ch : ascii) : bool := is_upper ch || is_lower ch.
Definition is_digit (ch : ascii) : bool := (48 <=? code ch) && (code ch <=? 57).

Definition chr (n : Z) : ascii := ascii_of_N (Z.to_N n).

Definition upper_char (ch : ascii) : ascii :=
  if is_lower ch then chr (code ch - 32) else ch.

Definition upper (s : string) : list ascii :=
  upper_char <$> list_ascii_of_string s.

(** [ascii_uppercase.index(letter) + 1], [None] when the letter is absent. *)
Definition letter_pos (letter : ascii) : option Z :=
  if is_upper letter then Some (code letter - 64) else None.

Definition POWERS : list Z := [1; 26; 676].

(** The loop over [zip(reversed(col.upper()), POWERS)]; [None] stands for
    the [ValueError] raised at the first character that is not a letter. *)
Fixpoint index_loop (pairs : list (ascii * Z)) (idx : Z) : option Z :=
  match pairs with
  | [] => Some idx
  | (letter, power) :: rest =>
      match letter_pos letter with
      | None => None
      | Some pos => index_loop rest (idx + pos * power)
      end
  end.

Definition column_index_from_string (col : string) : result Z :=
  if 3 <? Z.of_nat (String.length col) then Raise (ValueError (NotAColumnName col))
  else match index_loop (zip (reverse (upper col)) POWERS) 0 with
       | None => Raise (ValueError (NotAColumnName col))
       | Some idx =>
           if (0 <? idx) && (idx <? 18279) then Ok idx
           else Raise (ValueError (NotAColumnName col))
       end.

(** The [while col_idx > 0] loop of [get_column_letter]; an index up to
    18278 needs at most three rounds. *)
Fixpoint letters_loop (rounds : nat) (col_idx : Z) (letters : list ascii) : list ascii :=
  match rounds with
  | O => letters
  | S rounds' =>
      if 0 <? col_idx then
        let q := col_idx / 26 in
        let remainder := col_idx mod 26 in
        if remainder =? 0
        then letters_loop rounds' (q - 1) (chr (26 + 64) :: letters)
        else letters_loop rounds' q (chr (remainder + 64) :: letters)
      else letters
  end.

Definition get_column_letter (idx : Z) : result string :=
  if (1 <=? idx) && (idx <=? 18278)
  then Ok (string_of_list_ascii (letters_loop 3 idx []))
  else Raise (ValueError (InvalidColumnIndex idx)).

(** Column numbering as the specification words it: base 26 over the
    letters, ['A'..'Z'] standing for [1..26]. *)
Definition letter_value (ch : ascii) : Z := code ch - 64.
Definition base26 (letters : list ascii) : Z :=
  fold_left (λ acc ch, acc * 26 + letter_value ch) letters 0.

(** ** Engine: cells, worksheets, workbooks *)

Inductive Side := NoSide | Thin.
Record Border := { b_left : Side; b_right : Side; b_top : Side; b_bottom : Side }.
Record Font := { bold : bool }.
Record PatternFill := { start_color : string; end_color : string; fill_type : string }.
Record Alignment := { horizontal : string }.

Record Cell := {
  value : pyvalue;
  number_format : string;
  border : Border;
  font : Font;
  fill : option PatternFill;
  alignment : option Alignment
}.

(** A cell the engine has just created. *)
Definition empty_cell : Cell :=
  {| value := PyNone; number_format := "General";
     border := {| b_left := NoSide; b_right := NoSide; b_top := NoSide; b_bottom := NoSide |};
     font := {| bold := false |}; fill := None; alignment := None |}.

Definition thin_border : Border :=
  {| b_left := Thin; b_right := Thin; b_top := Thin; b_bottom := Thin |}.

(** A sheet: its title, the sparse grid keyed by (row, column), and the
    column widths keyed by column letter. *)
Record Worksheet := {
  title : string;
  cells : gmap (Z * Z) Cell;
  column_dimensions : gmap string Z
}.

Definition new_worksheet (t : string) : Worksheet :=
  {| title := t; cells := ∅; column_dimensions := ∅ |}.

Definition with_cells (f : gmap (Z * Z) Cell → gmap (Z * Z) Cell) (ws : Worksheet) : Worksheet :=
  {| title := title ws; cells := f (cells ws); column_dimensions := column_dimensions ws |}.

(** Sheets in workbook order. *)
Abbreviation Workbook := (list Worksheet).

(** What the facade cannot know about the engine and the source leaves to
    it: which display formats the engine takes (the facade guards the
    assignment with [except ValueError]), and what title the engine gives a
    new sheet (it may refuse a title or adjust it). *)
Class Engine := {
  number_format_ok : string → bool;
  bind_title : list string → string → result string
}.

Global Instance result_ret : MRet result := λ A a, Ok a.
Global Instance result_bind : MBind result := λ A B f r,
  match r with Ok a => f a | Raise e => Raise e end.
Global Instance result_fmap : FMap result := λ A B f r,
  match r with Ok a => Ok (f a) | Raise e => Raise e end.

(** *** Cells of a sheet *)

(** [ws._get_cell(row, column)]: the cell at the coordinate, created empty
    when the grid has none there.  A cell object is referred to by its
    coordinate. *)
Definition _get_cell (row column : Z) : St Worksheet (Z * Z) := λ ws,
  match cells ws !! (row, column) with
  | Some _ => (Ok (row, column), ws)
  | None => (Ok (row, column), with_cells <[(row, column) := empty_cell]> ws)
  end.

(** [ws.cell(row=row, column=column)] *)
Definition ws_cell (row column : Z) : St Worksheet (Z * Z) :=
  if (row <? 1) || (column <? 1) then raise (ValueError RowOrColumnBelowOne)
  else _get_cell row column.

(** [cell.value], read on a cell object. *)
Definition cell_value (coord : Z * Z) (ws : Worksheet) : pyvalue :=
  match cells ws !! coord with
  | Some c => value c
  | None => PyNone
  end.

Definition set_value (coord : Z * Z) (v : pyvalue) : St Worksheet unit :=
  modify (with_cells (alter (λ c,
    {| value := v; number_format := number_format c; border := border c;
       font := font c; fill := fill c; alignment := alignment c |}) coord)).

Definition set_number_format `{Engine} (coord : Z * Z) (fmt : string) : St Worksheet unit :=
  if number_format_ok fmt then
    modify (with_cells (alter (λ c,
      {| value := value c; number_format := fmt; border := border c;
         font := font c; fill := fill c; alignment := alignment c |}) coord))
  else raise (ValueError (EngineMessage fmt)).

Definition set_border (coord : Z * Z) (b : Border) : St Worksheet unit :=
  modify (with_cells (alter (λ c,
    {| value := value c; number_format := number_format c; border := b;
       font := font c; fill := fill c; alignment := alignment c |}) coord)).

Definition set_font (coord : Z * Z) (f : Font) : St Worksheet unit :=
  modify (with_cells (alter (λ c,
    {| value := value c; number_format := number_format c; border := border c;
       font := f; fill := fill c; alignment := alignment c |}) coord)).

Definition set_fill (coord : Z * Z) (p : PatternFill) : St Worksheet unit :=
  modify (with_cells (alter (λ c,
    {| value := value c; number_format := number_format c; border := border c;
       font := font c; fill := Some p; alignment := alignment c |}) coord)).

Definition set_alignment (coord : Z * Z) (a : Alignment) : St Worksheet unit :=
  modify (with_cells (alter (λ c,
    {| value := value c; number_format := number_format c; border := border c;
       font := font c; fill := fill c; alignment := Some a |}) coord)).

(** [ws.column_dimensions[letter].width = w] *)
Definition set_column_width (letter : string) (w : Z) : St Worksheet unit :=
  modify (λ ws, {| title := title ws; cells := cells ws;
                   column_dimensions := <[letter := w]> (column_dimensions ws) |}).

(** [ws.max_row] and [ws.max_column]: 1 on an empty grid. *)
Definition max_of (zs : list Z) : Z :=
  match zs with
  | [] => 1
  | z :: rest => fold_left Z.max rest z
  end.
Definition ws_max_row (ws : Worksheet) : Z := max_of ((map_to_list (cells ws)).*1.*1).
Definition ws_max_column (ws : Worksheet) : Z := max_of ((map_to_list (cells ws)).*1.*2).

(** Python's [x or d] on an optional integer bound. *)
Definition or_default (x : option Z) (d : Z) : Z :=
  match x with
  | Some z => if z =? 0 then d else z
  | None => d
  end.

Definition truthy (x : option Z) : bool :=
  match x with
  | Some z => negb (z =? 0)
  | None => false
  end.

(** The generator [ws._cells_by_row], consumed to the end: it visits the
    block row by row through [ws.cell], so it creates the cells it does not
    find; [read] is what a row keeps of each cell (the cell object, or its
    value under [values_only=True]). *)
Definition _cells_by_row {B} (min_col min_row max_col max_row : Z)
    (read : Z * Z → St Worksheet B) : St Worksheet (list (list B)) :=
  for_collect (range_incl min_row max_row) (λ row,
    for_collect (range_incl min_col max_col) (λ column,
      cell ← ws_cell row column; read cell)).

Definition _cells_by_col {B} (min_col min_row max_col max_row : Z)
    (read : Z * Z → St Worksheet B) : St Worksheet (list (list B)) :=
  for_collect (range_incl min_col max_col) (λ column,
    for_collect (range_incl min_row max_row) (λ row,
      cell ← ws_cell row column; read cell)).

(** [ws.iter_rows(min_row, max_row, min_col, max_col, values_only)] and
    [ws.iter_cols(min_col, max_col)].  (The engine's early exit needs all
    four bounds to be absent or zero, which no call below produces.) *)
Definition iter_rows {B} (min_row max_row min_col max_col : option Z)
    (read : Z * Z → St Worksheet B) : St Worksheet (list (list B)) := λ ws,
  _cells_by_row (or_default min_col 1) (or_default min_row 1)
    (or_default max_col (ws_max_column ws)) (or_default max_row (ws_max_row ws))
    read ws.

Definition iter_cols {B} (min_col max_col : option Z)
    (read : Z * Z → St Worksheet B) : St Worksheet (list (list B)) := λ ws,
  _cells_by_col (or_default min_col 1) 1
    (or_default max_col (ws_max_column ws)) (ws_max_row ws) read ws.

(** What a row keeps of a cell. *)
Definition the_cell (cell : Z * Z) : St Worksheet (Z * Z) := mret cell.
Definition the_value (cell : Z * Z) : St Worksheet pyvalue := gets (cell_value cell).

(** *** Indexing a sheet by a key: [ws[key]] *)

Definition skip_dollar (l : list ascii) : list ascii :=
  match l with
  | "$"%char :: rest => rest
  | _ => l
  end.

(** At most [n] leading characters that satisfy [p], and the rest. *)
Fixpoint take_upto (n : nat) (p : ascii → bool) (l : list ascii) : list ascii * list ascii :=
  match n, l with
  | S n', ch :: rest =>
      if p ch then let '(taken, remaining) := take_upto n' p rest in (ch :: taken, remaining)
      else ([], l)
  | _, _ => ([], l)
  end.

(** All leading characters that satisfy [p], and the rest. *)
Fixpoint take_all (p : ascii → bool) (l : list ascii) : list ascii * list ascii :=
  match l with
  | ch :: rest =>
      if p ch then let '(taken, remaining) := take_all p rest in (ch :: taken, remaining)
      else ([], l)
  | [] => ([], [])
  end.

(** An optional group that matched nothing is [None]. *)
Definition group (g : list ascii) : option (list ascii) :=
  match g with
  | [] => None
  | _ => Some g
  end.

(** [[$]?([A-Za-z]{1,3})?[$]?(\d+)?]: the two groups and what is left. *)
Definition scan_coordinate (l : list ascii)
    : option (list ascii) * option (list ascii) * list ascii :=
  let '(col, l2) := take_upto 3 is_letter (skip_dollar l) in
  let '(row, l4) := take_all is_digit (skip_dollar l2) in
  (group col, group row, l4).

(** The end anchor of a Python pattern also holds before a final newline. *)
Definition at_end (l : list ascii) : bool :=
  match l with
  | [] => true
  | [ch] => Ascii.eqb ch "010"%char
  | _ => false
  end.

Record range_groups := {
  g_min_col : option (list ascii);
  g_min_row : option (list ascii);
  g_sep : bool;
  g_max_col : option (list ascii);
  g_max_row : option (list ascii)
}.

(** [ABSOLUTE_RE.match(range_string)]: a coordinate, then optionally a colon
    and a second coordinate, anchored at both ends.  The character classes
    of the pattern are disjoint, so scanning greedily decides the match. *)
Definition ABSOLUTE_RE_match (range_string : string) : option range_groups :=
  let '(min_col, min_row, l) := scan_coordinate (list_ascii_of_string range_string) in
  match l with
  | ":"%char :: after =>
      let '(max_col, max_row, l') := scan_coordinate after in
      if at_end l' then
        Some {| g_min_col := min_col; g_min_row := min_row; g_sep := true;
                g_max_col := max_col; g_max_row := max_row |}
      else None
  | _ =>
      if at_end l then
        Some {| g_min_col := min_col; g_min_row := min_row; g_sep := false;
                g_max_col := None; g_max_row := None |}
      else None
  end.

(** [int(digits)] *)
Definition int (digits : list ascii) : Z :=
  fold_left (λ acc d, acc * 10 + (code d - 48)) digits 0.

Definition present {A} (g : option A) : bool :=
  match g with Some _ => true | None => false end.

(** [range_boundaries(range_string)]: (min_col, min_row, max_col, max_row). *)
Definition range_boundaries (range_string : string)
    : result (option Z * option Z * option Z * option Z) :=
  match ABSOLUTE_RE_match range_string with
  | None => Raise (ValueError (NotACoordinateOrRange range_string))
  | Some g =>
      let all_cols := present (g_min_col g) && present (g_max_col g) in
      let all_rows := present (g_min_row g) && present (g_max_row g) in
      let any_cols := present (g_min_col g) || present (g_max_col g) in
      let any_rows := present (g_min_row g) || present (g_max_row g) in
      if g_sep g && negb ((all_cols && all_rows) || (all_cols && negb any_rows)
                          || (all_rows && negb any_cols))
      then Raise (ValueError (NotACoordinateOrRange range_string))
      else
        min_col ← match g_min_col g with
                  | Some c => Some <$> column_index_from_string (string_of_list_ascii c)
                  | None => Ok None
                  end;
        let min_row := int <$> g_min_row g in
        max_col ← match g_max_col g with
                  | Some c => Some <$> column_index_from_string (string_of_list_ascii c)
                  | None => Ok min_col
                  end;
        let max_row := match g_max_row g with
                       | Some r => Some (int r)
                       | None => min_row
                       end in
        Ok (min_col, min_row, max_col, max_row)
  end.

(** What [ws[key]] hands back: one cell object, a tuple of cells, or a tuple
    of tuples of cells. *)
Inductive item :=
| ItemCell (coord : Z * Z)
| ItemCells (coords : list (Z * Z))
| ItemRows (rows : list (list (Z * Z))).

Definition contains_colon (key : string) : bool :=
  existsb (Ascii.eqb ":"%char) (list_ascii_of_string key).

(** [ws[key]] for a string key. *)
Definition ws_getitem (key : string) : St Worksheet item :=
  '(min_col, min_row, max_col, max_row) ← lift (range_boundaries key);
  if negb (truthy min_col || truthy min_row || truthy max_col || truthy max_row)
  then raise (IndexError (NotACoordinateOrRange key))
  else
    match min_row, min_col with
    | None, _ =>
        cols ← iter_cols min_col max_col the_cell;
        if bool_decide (min_col = max_col)
        then mret (ItemCells (List.hd [] cols))
        else mret (ItemRows cols)
    | Some _, None =>
        widest ← gets ws_max_column;
        rows ← iter_rows min_row max_row min_col (Some widest) the_cell;
        if bool_decide (min_row = max_row)
        then mret (ItemCells (List.hd [] rows))
        else mret (ItemRows rows)
    | Some r, Some c =>
        if negb (contains_colon key) then ItemCell <$> _get_cell r c
        else ItemRows <$> iter_rows min_row max_row min_col max_col the_cell
    end.

(** [item.value = v] and the other attribute accesses the facade makes on
    what [ws[key]] returned. *)
Definition item_set_value (it : item) (v : pyvalue) : St Worksheet unit :=
  match it with
  | ItemCell coord => set_value coord v
  | _ => raise (AttributeError (TupleHasNoAttribute "value"))
  end.

Definition item_get_value (it : item) : St Worksheet pyvalue :=
  match it with
  | ItemCell coord => gets (cell_value coord)
  | _ => raise (AttributeError (TupleHasNoAttribute "value"))
  end.

Definition item_set_number_format `{Engine} (it : item) (fmt : string) : St Worksheet unit :=
  match it with
  | ItemCell coord => set_number_format coord fmt
  | _ => raise (AttributeError (TupleHasNoAttribute "number_format"))
  end.

Definition item_set_border (it : item) (b : Border) : St Worksheet unit :=
  match it with
  | ItemCell coord => set_border coord b
  | _ => raise (AttributeError (TupleHasNoAttribute "border"))
  end.

(** *** Workbooks *)

(** [Workbook()]: a new workbook comes with one sheet, titled "Sheet". *)
Definition Workbook_new : Workbook := [new_worksheet "Sheet"].

(** [wb.sheetnames] *)
Definition sheetnames (w : Workbook) : list string := title <$> w.

(** Position of the first sheet titled [key]. *)
Fixpoint find_sheet (key : string) (w : Workbook) : option nat :=
  match w with
  | [] => None
  | ws :: rest =>
      if bool_decide (title ws = key) then Some O else S <$> find_sheet key rest
  end.

(** [wb[key]]; a sheet object is referred to by its position. *)
Definition wb_getitem (key : string) : St Workbook nat := λ w,
  match find_sheet key w with
  | Some i => (Ok i, w)
  | None => (Raise (KeyError (WorksheetDoesNotExist key)), w)
  end.

(** [wb.create_sheet(title=t)]: the new sheet goes last. *)
Definition wb_create_sheet `{Engine} (t : string) : St Workbook nat :=
  names ← gets sheetnames;
  bound ← lift (bind_title names t);
  n ← gets (length : Workbook → nat);
  modify (λ w : Workbook, app w [new_worksheet bound]);;
  mret n.

(** Statements executed on the sheet object [ws] of the workbook. *)
Definition on_sheet {A} (ws : nat) (m : St Worksheet A) : St Workbook A := λ w,
  match w !! ws with
  | Some sheet => let '(r, sheet') := m sheet in (r, <[ws := sheet']> w)
  | None => (Raise (KeyError (EngineMessage "no such sheet object")), w)
  end.

(** ** The facade: class [ExcelManager] *)

Record ExcelManager := { filename : string; wb : Workbook }.

(** What is stored at a path: nothing, a workbook the engine loads, or
    content on which [load_workbook] raises. *)
Abbreviation files := (gmap string (result Workbook)).

(** [ExcelManager(filename)].  The status line it prints is left out. *)
Definition __init__ (fs : files) (name : string) : result ExcelManager :=
  match fs !! name with
  | Some stored =>
      match stored with
      | Ok loaded => Ok {| filename := name; wb := loaded |}
      | Raise e => Raise (Exception (FileLoadError (str e)))
      end
  | None => Ok {| filename := name; wb := Workbook_new |}
  end.

Section Facade.
Context `{Engine}.

(** The methods run on [self.wb]; a sheet object and a cell object are
    referred to by their position in the workbook and in the grid. *)

(** [create_sheet(sheet_name, headers=None)]; returns the new sheet. *)
Definition create_sheet (sheet_name : string) (headers : option (list string))
    : St Workbook nat :=
  names ← gets sheetnames;
  if bool_decide (sheet_name ∈ names)
  then raise (ValueError (SheetAlreadyExists sheet_name))
  else
    ws ← wb_create_sheet sheet_name;
    match headers with
    | Some ((_ :: _) as labels) =>
        for_each (enumerate labels 1) (λ '(col, header),
          on_sheet ws (
            cell ← ws_cell 1 col;
            set_value cell (PyStr header);;
            set_font cell {| bold := true |};;
            set_fill cell {| start_color := "CCCCCC"; end_color := "CCCCCC";
                             fill_type := "solid" |};;
            set_alignment cell {| horizontal := "center" |};;
            set_border cell thin_border;;
            letter ← lift (get_column_letter col);
            set_column_width letter 15))
    | _ => mret tt
    end;;
    mret ws.

(** [write_data(sheet_name, data, start_row=1)] *)
Definition write_data (sheet_name : string) (data : list (list pyvalue))
    (start_row : Z) : St Workbook unit :=
  names ← gets sheetnames;
  if negb (bool_decide (sheet_name ∈ names))
  then raise (ValueError (SheetDoesNotExist sheet_name))
  else
    ws ← wb_getitem sheet_name;
    for_each (enumerate data start_row) (λ '(row_idx, row_data),
      for_each (enumerate row_data 1) (λ '(col_idx, v),
        on_sheet ws (
          cell ← ws_cell row_idx col_idx;
          set_value cell v;;
          set_border cell thin_border))).

(** [column_index_from_string(column) if isinstance(column, str) else column] *)
Definition resolve_column (column : column_arg) : result Z :=
  match column with
  | ColStr s => column_index_from_string s
  | ColInt z => Ok z
  end.

(** The address check shared by [write_cell] and [read_cell]: the [try]
    block and its [except ValueError]. *)
Definition checked_column {S} (row : Z) (column : column_arg) : St S Z :=
  try_except
    (col_idx ← lift (resolve_column column);
     if col_idx <? 1 then raise (ValueError (InvalidColumnNumber col_idx))
     else if row <? 1 then raise (ValueError (InvalidRowNumber row))
     else mret col_idx)
    is_ValueError
    (λ e, raise (ValueError (InvalidColumnSpec (str e)))).

(** [if number_format: ...]: [None] and the empty string are both falsy. *)
Definition given (fmt : option string) : option string :=
  match fmt with
  | Some "" => None
  | other => other
  end.

(** [write_cell(sheet_name, row, column, value, number_format=None)] *)
Definition write_cell (sheet_name : string) (row : Z) (column : column_arg)
    (v : pyvalue) (fmt : option string) : St Workbook unit :=
  names ← gets sheetnames;
  if negb (bool_decide (sheet_name ∈ names))
  then raise (ValueError (SheetDoesNotExist sheet_name))
  else
    ws ← wb_getitem sheet_name;
    col_idx ← checked_column row column;
    on_sheet ws (
      cell ← ws_cell row col_idx;
      set_value cell v;;
      match given fmt with
      | Some f =>
          try_except (set_number_format cell f) is_ValueError
            (λ e, raise (ValueError (InvalidNumberFormat f (str e))))
      | None => mret tt
      end;;
      set_border cell thin_border).

(** [write_cell_a1(sheet_name, cell_reference, value, number_format=None)] *)
Definition write_cell_a1 (sheet_name : string) (cell_reference : string)
    (v : pyvalue) (fmt : option string) : St Workbook unit :=
  names ← gets sheetnames;
  if negb (bool_decide (sheet_name ∈ names))
  then raise (ValueError (SheetDoesNotExist sheet_name))
  else
    ws ← wb_getitem sheet_name;
    on_sheet ws (
      cell ← try_except (ws_getitem cell_reference) is_ValueError_or_KeyError
                (λ e, raise (ValueError (InvalidCellReference cell_reference (str e))));
      item_set_value cell v;;
      match given fmt with
      | Some f =>
          try_except (item_set_number_format cell f) is_ValueError
            (λ e, raise (ValueError (InvalidNumberFormat f (str e))))
      | None => mret tt
      end;;
      item_set_border cell thin_border).

(** [read_cell(sheet_name, row, column)] *)
Definition read_cell (sheet_name : string) (row : Z) (column : column_arg)
    : St Workbook pyvalue :=
  names ← gets sheetnames;
  if negb (bool_decide (sheet_name ∈ names))
  then raise (ValueError (SheetDoesNotExist sheet_name))
  else
    ws ← wb_getitem sheet_name;
    col_idx ← checked_column row column;
    on_sheet ws (cell ← ws_cell row col_idx; gets (cell_value cell)).

(** [read_cell_a1(sheet_name, cell_reference)]: no [try] around [ws[...]]. *)
Definition read_cell_a1 (sheet_name : string) (cell_reference : string)
    : St Workbook pyvalue :=
  names ← gets sheetnames;
  if negb (bool_decide (sheet_name ∈ names))
  then raise (ValueError (SheetDoesNotExist sheet_name))
  else
    ws ← wb_getitem sheet_name;
    on_sheet ws (cell ← ws_getitem cell_reference; item_get_value cell).

(** The [try] block of [read_range] and its [except ValueError]. *)
Definition checked_range {S} (start_row : Z) (start_column : column_arg)
    (end_row : Z) (end_column : column_arg) : St S (Z * Z) :=
  try_except
    (if (start_row <? 1) || (end_row <? 1) then raise (ValueError RowNumbersBelowOne)
     else if end_row <? start_row then raise (ValueError EndRowBeforeStartRow)
     else
       start_col ← lift (resolve_column start_column);
       end_col ← lift (resolve_column end_column);
       if (start_col <? 1) || (end_col <? 1) then raise (ValueError ColumnNumbersBelowOne)
       else if end_col <? start_col then raise (ValueError EndColumnBeforeStartColumn)
       else mret (start_col, end_col))
    is_ValueError
    (λ e, raise (ValueError (InvalidRangeSpec (str e)))).

(** [read_range(sheet_name, start_row, start_column, end_row, end_column)] *)
Definition read_range (sheet_name : string) (start_row : Z) (start_column : column_arg)
    (end_row : Z) (end_column : column_arg) : St Workbook (list (list pyvalue)) :=
  names ← gets sheetnames;
  if negb (bool_decide (sheet_name ∈ names))
  then raise (ValueError (SheetDoesNotExist sheet_name))
  else
    ws ← wb_getitem sheet_name;
    '(start_col, end_col) ← checked_range start_row start_column end_row end_column;
    on_sheet ws (iter_rows (Some start_row) (Some end_row) (Some start_col) (Some end_col)
                   the_value).

End Facade.

(** ** Effects of the cell operations, as functions on a sheet *)

(** The grid after [_get_cell]: the coordinate holds a cell, empty if new. *)
Definition touch (coord : Z * Z) (ws : Worksheet) : Worksheet :=
  match cells ws !! coord with
  | Some _ => ws
  | None => with_cells <[coord := empty_cell]> ws
  end.

(** The cell at a coordinate after a write of [v] with an applied format
    [fmt] ([None]: the format is left as it was). *)
Definition written (v : pyvalue) (fmt : option string) (c : Cell) : Cell :=
  {| value := v;
     number_format := match fmt with Some f => f | None => number_format c end;
     border := thin_border;
     font := font c; fill := fill c; alignment := alignment c |}.

Definition cell_at (coord : Z * Z) (ws : Worksheet) : Cell :=
  match cells ws !! coord with
  | Some c => c
  | None => empty_cell
  end.

Definition store (coord : Z * Z) (v : pyvalue) (fmt : option string) (ws : Worksheet)
    : Worksheet :=
  with_cells <[coord := written v fmt (cell_at coord ws)]> ws.

(** The sheet object that [wb[s]] yields: position [i], contents [sheet]. *)
Definition sheet_at (s : string) (w : Workbook) (i : nat) (sheet : Worksheet) : Prop :=
  s ∈ sheetnames w ∧ find_sheet s w = Some i ∧ w !! i = Some sheet.

(** The cell a reference denotes for the engine, when it denotes one cell:
    column letters and a row number, without a colon. *)
Definition cell_of_reference (ref : string) : option (Z * Z) :=
  match range_boundaries ref with
  | Ok (Some c, Some r, _, _) => if contains_colon ref then None else Some (r, c)
  | _ => None
  end.

(** A reference the engine cannot parse: [range_boundaries] raises. *)
Definition unparsable (ref : string) : Prop :=
  range_boundaries ref = Raise (ValueError (NotACoordinateOrRange ref)).

(** Two engines to run the facade on: [lenient] takes every display format
    and keeps every title as given; [refusing bad] differs in that it
    refuses the format [bad]. *)
Definition lenient : Engine :=
  {| number_format_ok := λ _, true; bind_title := λ _ t, Ok t |}.

(** A column string the conversion takes: one to three ASCII letters. *)
Definition is_column_name (col : string) : bool :=
  let chars := list_ascii_of_string col in
  (1 <=? Z.of_nat (length chars)) && (Z.of_nat (length chars) <=? 3)
  && forallb is_letter chars.


(** When [read_range] rejects its bounds, as the code decides it. *)
Definition range_fault (start_row : Z) (start_column : column_arg)
    (end_row : Z) (end_column : column_arg) : Prop :=
  start_row < 1 ∨ end_row < 1 ∨ end_row < start_row
  ∨ (∃ e, resolve_column start_column = Raise e)
  ∨ (∃ e, resolve_column end_column = Raise e)
  ∨ (∃ c1 c2, resolve_column start_column = Ok c1 ∧ resolve_column end_column = Ok c2
              ∧ (c1 < 1 ∨ c2 < 1 ∨ c2 < c1)).


(** An operation fails with an error of kind [k]. *)
Definition fails_with {S A} (m : St S A) (s : S) (k : error_kind) : Prop :=
  ∃ e, fst (m s) = Raise e ∧ classify e = Some k.

(** Two states of a sheet that hold the same values under the same title. *)
Definition same_values (ws ws' : Worksheet) : Prop :=
  title ws' = title ws ∧ ∀ coord, cell_value coord ws' = cell_value coord ws.

(** The values of a sheet over inclusive bounds, row by row. *)
Definition block (ws : Worksheet) (start_row end_row start_col end_col : Z)
    : list (list pyvalue) :=
  (λ r, (λ c, cell_value (r, c) ws) <$> range_incl start_col end_col)
    <$> range_incl start_row end_row.





(** A sheet on which only the value of one cell has been assigned: the cell
    keeps its format and its border. *)
Definition valued (v : pyvalue) (c : Cell) : Cell :=
  {| value := v; number_format := number_format c; border := border c;
     font := font c; fill := fill c; alignment := alignment c |}.

Definition store_value (coord : Z * Z) (v : pyvalue) (ws : Worksheet) : Worksheet :=
  with_cells <[coord := valued v (cell_at coord ws)]> ws.

(** The decimal digits of a number, most significant first, and the A1
    reference of the cell at row [r] and column [c]: the column letters
    followed by the row number. *)
Fixpoint digits_loop (rounds : nat) (n : Z) (digits : list ascii) : list ascii :=
  match rounds with
  | O => digits
  | S rounds' =>
      if n <? 10 then chr (n + 48) :: digits
      else digits_loop rounds' (n / 10) (chr (n mod 10 + 48) :: digits)
  end.

Definition decimal (n : Z) : list ascii := digits_loop (Z.to_nat n) n [].

Definition coordinate (r c : Z) : result string :=
  letters ← get_column_letter c;
  Ok (string_of_list_ascii (app (list_ascii_of_string letters) (decimal r))).

(** The capital letter at position [v] of the alphabet, and the number that
    a list of positions spells in base 26. *)
Definition capital (v : Z) : ascii := chr (v + 64).
Definition spelled (positions : list Z) : Z :=
  fold_left (λ acc v, acc * 26 + v) positions 0.

(** ** What a workbook holds, and what follows the sheet operations *)

(** The value the workbook holds at a cell of the sheet [wb[s]]; [None]
    when no sheet is titled [s]. *)
Definition value_at (w : Workbook) (s : string) (coord : Z * Z) : option pyvalue :=
  i ← find_sheet s w; sheet ← w !! i; Some (cell_value coord sheet).



(** A computation on a sheet that, however it ends, leaves every value of
    the sheet and its title as they were (it may create empty cells). *)
Definition keeps_values {A} (m : St Worksheet A) : Prop :=
  ∀ ws r ws', m ws = (r, ws') → same_values ws ws'.

(** Two states of a workbook with the same sheets holding the same values. *)
Definition same_workbook_values (w w' : Workbook) : Prop :=
  sheetnames w' = sheetnames w ∧ ∀ s coord, value_at w' s coord = value_at w s coord.

(** What the statements of a cell write do to the sheet once the address has
    passed its check: with an applied format the engine takes, or none, the
    cell is stored; with a format the engine refuses, the value alone. *)
Definition cell_write `{Engine} (coord : Z * Z) (v : pyvalue) (fmt : option string)
    (ws : Worksheet) : result unit * Worksheet :=
  match fmt with
  | Some f =>
      if number_format_ok f then (Ok tt, store coord v (Some f) ws)
      else (Raise (ValueError (InvalidNumberFormat f (EngineMessage f))),
            store_value coord v ws)
  | None => (Ok tt, store coord v None ws)
  end.




(** The cell of a header after the statements of the header loop ran on
    the cell [c]: value and style are set, the display format is not. *)
Definition styled (header : string) (c : Cell) : Cell :=
  {| value := PyStr header;
     number_format := number_format c;
     border := thin_border;
     font := {| bold := true |};
     fill := Some {| start_color := "CCCCCC"; end_color := "CCCCCC";
                     fill_type := "solid" |};
     alignment := Some {| horizontal := "center" |} |}.

Definition letter_of (col : Z) : string :=
  match get_column_letter col with
  | Ok letter => letter
  | Raise _ => ""
  end.

(** One pass of the header loop, and the whole loop, as functions on the
    sheet. *)
Definition head_cell (col : Z) (header : string) (ws : Worksheet) : Worksheet :=
  {| title := title ws;
     cells := <[(1, col) := styled header (cell_at (1, col) ws)]> (cells ws);
     column_dimensions := <[letter_of col := 15]> (column_dimensions ws) |}.

Fixpoint head_row (col : Z) (labels : list string) (ws : Worksheet) : Worksheet :=
  match labels with
  | [] => ws
  | header :: rest => head_row (col + 1) rest (head_cell col header ws)
  end.

(** ** Saving, and the two scripts

    [wb.save(filename)] writes through the operating system, so it meets
    exceptions the rest of the facade never sees.  [PermissionError] is a
    subclass of [OSError]; [OSError] below stands for every other one. *)
Inductive os_message :=
| NoWritePermission (filename : string)
| SaveFailed (inner : os_message)
| OsMessage (text : string).

Inductive os_exn :=
| PermissionError (m : os_message)
| OSError (m : os_message).

(** What a run can raise: an exception of the engine or the facade, or one
    of the operating system. *)
Inductive failure :=
| Py (e : exn)
| Os (e : os_exn).

(** [str(e)] *)
Definition shown (e : failure) : message + os_message :=
  match e with
  | Py e => inl (str e)
  | Os (PermissionError m) | Os (OSError m) => inr m
  end.

(** What [wb.save] does is the engine's and the system's business: whether
    it raises, and what is at the path afterwards. *)
Class Disk := {
  wb_save : Workbook → string → files → option failure * files
}.

(** A disk that stores what it is given, and one that refuses every write. *)
Definition storing : Disk :=
  {| wb_save := λ w path fs, (None, <[path := Ok w]> fs) |}.
Definition read_only : Disk :=
  {| wb_save := λ w path fs, (Some (Os (PermissionError (OsMessage "Permission denied"))), fs) |}.

(** [save()] *)
Definition save `{Disk} (self : ExcelManager) (fs : files) : option failure * files :=
  match wb_save (wb self) (filename self) fs with
  | (Some (Os (PermissionError _)), fs') =>
      (Some (Os (PermissionError (NoWritePermission (filename self)))), fs')
  | (Some (Os (OSError m)), fs') => (Some (Os (OSError (SaveFailed m))), fs')
  | other => other
  end.

(** The lines the program prints. *)
Inductive line :=
| LoadedExisting (filename : string)
| CreatedNew (filename : string)
| ReadData (range_data : list (list pyvalue))
| ErrorLine (text : message + os_message).

(** The line [ExcelManager(filename)] prints once the workbook is there. *)
Definition opening_line (fs : files) (name : string) : line :=
  match fs !! name with
  | Some _ => LoadedExisting name
  | None => CreatedNew name
  end.

(** The statements between [ExcelManager(filename)] and [excel.save()], the
    same in [example_usage] and in [usage.py]; they yield [range_data]. *)
Definition statements `{Engine} : St Workbook (list (list pyvalue)) :=
  create_sheet "データ" (Some ["ID"; "名前"; "値"]);;
  write_cell "データ" 2 (ColInt 1) (PyInt 1) None;;
  write_cell "データ" 2 (ColStr "B") (PyStr "サンプル1") None;;
  write_cell "データ" 2 (ColInt 3) (PyInt 1000) (Some "#,##0");;
  write_cell_a1 "データ" "A3" (PyInt 2) None;;
  write_cell_a1 "データ" "B3" (PyStr "サンプル2") None;;
  write_cell_a1 "データ" "C3" (PyInt 2000) (Some "#,##0");;
  value1 ← read_cell "データ" 2 (ColInt 1);
  value2 ← read_cell_a1 "データ" "B2";
  read_range "データ" 2 (ColStr "A") 3 (ColStr "C").

(** A run: the exception that ended it, if any, the lines printed, and the
    files afterwards. *)
Record run := { raised : option failure; printed : list line; disk : files }.

(** [example_usage(filename)] *)
Definition example_usage `{Engine} `{Disk} (filename : string) (fs : files) : run :=
  match __init__ fs filename with
  | Raise e => {| raised := Some (Py e); printed := []; disk := fs |}
  | Ok excel =>
      match statements (wb excel) with
      | (Raise e, _) =>
          {| raised := Some (Py e); printed := [opening_line fs filename]; disk := fs |}
      | (Ok range_data, w) =>
          let '(r, fs') := save {| filename := filename; wb := w |} fs in
          {| raised := r;
             printed := [opening_line fs filename; ReadData range_data];
             disk := fs' |}
      end
  end.

(** [main()], given the value of the required option [--file]: the exit
    status, the lines printed, the files afterwards. *)
Definition main `{Engine} `{Disk} (file : string) (fs : files) : Z * list line * files :=
  let r := example_usage file fs in
  match raised r with
  | None => (0, printed r, disk r)
  | Some e => (1, app (printed r) [ErrorLine (shown e)], disk r)
  end.

(** [usage.py]: the same statements on [sample.xlsx], with no [try]. *)
Definition usage `{Engine} `{Disk} (fs : files) : run :=
  match __init__ fs "sample.xlsx" with
  | Raise e => {| raised := Some (Py e); printed := []; disk := fs |}
  | Ok excel =>
      match statements (wb excel) with
      | (Raise e, _) =>
          {| raised := Some (Py e); printed := [opening_line fs "sample.xlsx"]; disk := fs |}
      | (Ok range_data, w) =>
          let '(r, fs') := save {| filename := "sample.xlsx"; wb := w |} fs in
          {| raised := r;
             printed := [opening_line fs "sample.xlsx"; ReadData range_data];
             disk := fs' |}
      end
  end.



(** * Properties *)

(** ** How the engine operations act *)

(** Unfolds the monad of [St] in the goal. *)
Ltac st_unfold :=
  unfold mbind, St_bind, mret, St_ret, fmap, St_fmap, gets, modify, raise, lift,
    try_except.
Tactic Notation "st_unfold" "in" hyp(H) :=
  unfold mbind, St_bind, mret, St_ret, fmap, St_fmap, gets, modify, raise, lift,
    try_except in H.

(** Stepping through a sequence of statements. *)
Lemma bind_ok {S A B} (m : St S A) (k : A → St S B) (s s' : S) (a : A) :
  m s = (Ok a, s') → (m ≫= k) s = k a s'.
Proof. intros Hm. st_unfold. by rewrite Hm. Qed.

Lemma bind_raise {S A B} (m : St S A) (k : A → St S B) (s s' : S) (e : exn) :
  m s = (Raise e, s') → (m ≫= k) s = (Raise e, s').
Proof. intros Hm. st_unfold. by rewrite Hm. Qed.

Lemma bind_gets {S A B} (f : S → A) (k : A → St S B) (s : S) :
  (gets f ≫= k) s = k (f s) s.
Proof. done. Qed.

Lemma ltb_1_false (z : Z) : 1 ≤ z → (z <? 1) = false.
Proof. intros. apply Z.ltb_ge. lia. Qed.

Lemma find_sheet_lookup (s : string) (w : Workbook) :
  s ∈ sheetnames w →
  ∃ i sheet, find_sheet s w = Some i ∧ w !! i = Some sheet ∧ title sheet = s.
Proof.
  induction w as [|ws rest IH]; intros Hin.
  - by apply elem_of_nil in Hin.
  - cbn. case_bool_decide as Ht.
    + exists O, ws. done.
    + apply elem_of_cons in Hin as [Heq | Hin]; [congruence |].
      destruct (IH Hin) as (i & sheet & Hf & Hl & Htitle).
      exists (S i), sheet. rewrite Hf. done.
Qed.

Lemma sheetnames_insert (w : Workbook) (i : nat) (old new : Worksheet) :
  w !! i = Some old → title new = title old → sheetnames (<[i := new]> w) = sheetnames w.
Proof.
  intros Hl Ht. unfold sheetnames. rewrite list_fmap_insert, Ht.
  apply list_insert_id. by rewrite list_lookup_fmap, Hl.
Qed.

Lemma find_sheet_insert (s : string) (w : Workbook) (i j : nat) (old new : Worksheet) :
  w !! j = Some old → title new = title old →
  find_sheet s (<[j := new]> w) = find_sheet s w.
Proof.
  revert j. induction w as [|ws rest IH]; intros j Hl Ht; [done |].
  destruct j as [|j]; cbn in *.
  - injection Hl as ->. by rewrite Ht.
  - destruct (bool_decide (title ws = s)); [done |]. f_equal. by apply IH.
Qed.





Lemma get_cell_touch (r c : Z) (ws : Worksheet) :
  _get_cell r c ws = (Ok (r, c), touch (r, c) ws).
Proof. unfold _get_cell, touch. by destruct (cells ws !! (r, c)). Qed.

Lemma ws_cell_touch (r c : Z) (ws : Worksheet) :
  1 ≤ r → 1 ≤ c → ws_cell r c ws = (Ok (r, c), touch (r, c) ws).
Proof.
  intros Hr Hc. unfold ws_cell.
  rewrite (ltb_1_false r Hr), (ltb_1_false c Hc). apply get_cell_touch.
Qed.

Lemma cell_value_touch (coord coord' : Z * Z) (ws : Worksheet) :
  cell_value coord (touch coord' ws) = cell_value coord ws.
Proof.
  unfold touch, cell_value. destruct (cells ws !! coord') eqn:Hc'; [done |]. cbn.
  destruct (decide (coord' = coord)) as [-> | Hne].
  - by rewrite lookup_insert_eq, Hc'.
  - by rewrite lookup_insert_ne.
Qed.

Lemma title_touch (coord : Z * Z) (ws : Worksheet) : title (touch coord ws) = title ws.
Proof. unfold touch. by destruct (cells ws !! coord). Qed.




Lemma alter_touch (f : Cell → Cell) (coord : Z * Z) (ws : Worksheet) :
  with_cells (alter f coord) (touch coord ws)
  = with_cells <[coord := f (cell_at coord ws)]> ws.
Proof.
  unfold touch, cell_at, with_cells.
  destruct (cells ws !! coord) as [c|] eqn:Hc; cbn; f_equal.
  - rewrite <- (insert_id (cells ws) coord c Hc) at 1. apply alter_insert_eq.
  - apply alter_insert_eq.
Qed.

Lemma alter_inserted (f : Cell → Cell) (coord : Z * Z) (c : Cell) (ws : Worksheet) :
  with_cells (alter f coord) (with_cells <[coord := c]> ws)
  = with_cells <[coord := f c]> ws.
Proof.
  unfold with_cells. cbn. f_equal. apply alter_insert_eq.
Qed.

Lemma sheet_at_intro (s : string) (w : Workbook) :
  s ∈ sheetnames w → ∃ i sheet, sheet_at s w i sheet.
Proof.
  intros Hin. destruct (find_sheet_lookup s w Hin) as (i & sheet & Hf & Hl & _).
  by exists i, sheet.
Qed.


Lemma on_sheet_at {A} (m : St Worksheet A) (w : Workbook) (i : nat) (sheet : Worksheet) :
  w !! i = Some sheet →
  on_sheet i m w = (fst (m sheet), <[i := snd (m sheet)]> w).
Proof. intros Hl. unfold on_sheet. rewrite Hl. by destruct (m sheet). Qed.

Lemma column_index_from_string_cases (col : string) :
  (∃ idx, column_index_from_string col = Ok idx ∧ 1 ≤ idx ≤ 18278)
  ∨ column_index_from_string col = Raise (ValueError (NotAColumnName col)).
Proof.
  unfold column_index_from_string.
  destruct (3 <? Z.of_nat (String.length col)); [by right |].
  destruct (index_loop _ 0) as [idx|]; [| by right].
  destruct ((0 <? idx) && (idx <? 18279)) eqn:Hb; [| by right].
  left. exists idx. split; [done |].
  apply andb_true_iff in Hb as [H1 H2]. apply Z.ltb_lt in H1, H2. lia.
Qed.

Lemma resolve_column_cases (column : column_arg) :
  (∃ idx, resolve_column column = Ok idx)
  ∨ (∃ s, column = ColStr s ∧ resolve_column column = Raise (ValueError (NotAColumnName s))).
Proof.
  destruct column as [z | s]; cbn.
  - left. by exists z.
  - destruct (column_index_from_string_cases s) as [(idx & -> & _) | ->].
    + left. by exists idx.
    + right. by exists s.
Qed.

Lemma range_boundaries_min_col (ref : string) (c : Z) r mc mr :
  range_boundaries ref = Ok (Some c, r, mc, mr) → 1 ≤ c.
Proof.
  unfold range_boundaries. destruct (ABSOLUTE_RE_match ref) as [g|]; [| done].
  destruct (g_sep g && _); [done |].
  destruct (g_min_col g) as [letters|]; cbn.
  - destruct (column_index_from_string_cases (string_of_list_ascii letters))
      as [(idx & -> & Hidx) | ->]; cbn; [| done].
    destruct (g_max_col g); cbn.
    + destruct (column_index_from_string _); cbn; [| done].
      intros [= <-]. lia.
    + intros [= <-]. lia.
  - destruct (g_max_col g); cbn; [| done].
    destruct (column_index_from_string _); cbn; done.
Qed.

Lemma ws_getitem_cell (ref : string) (r c : Z) (ws : Worksheet) :
  cell_of_reference ref = Some (r, c) →
  ws_getitem ref ws = (Ok (ItemCell (r, c)), touch (r, c) ws).
Proof.
  unfold cell_of_reference, ws_getitem. st_unfold.
  destruct (range_boundaries ref) as [[[[min_col min_row] max_col] max_row] | e] eqn:Hb;
    [| done].
  destruct min_col as [c'|]; [| done]. destruct min_row as [r'|]; [| done].
  destruct (contains_colon ref); [done |]. intros [= -> ->].
  pose proof (range_boundaries_min_col _ _ _ _ _ Hb) as Hc.
  assert (truthy (Some c) = true) as ->.
  { cbn. destruct (c =? 0) eqn:Hz; [apply Z.eqb_eq in Hz; lia | done]. }
  cbn. by rewrite get_cell_touch.
Qed.

(** ** Column letters *)

Example column_A : column_index_from_string "A" = Ok 1.
Proof. reflexivity. Qed.
Example column_ZZZ : column_index_from_string "ZZZ" = Ok 18278.
Proof. reflexivity. Qed.
Example letter_28 : get_column_letter 28 = Ok "AB".
Proof. reflexivity. Qed.
Example letter_702 : get_column_letter 702 = Ok "ZZ".
Proof. reflexivity. Qed.

Ltac each_char ch :=
  destruct ch as [[] [] [] [] [] [] [] []].

Lemma letter_pos_upper (ch : ascii) :
  letter_pos (upper_char ch)
  = if is_letter ch then Some (letter_value (upper_char ch)) else None.
Proof. each_char ch; reflexivity. Qed.

Lemma letter_value_upper (ch : ascii) :
  is_letter ch = true →
  1 ≤ letter_value (upper_char ch) ≤ 26.
Proof. each_char ch; intros Hl; try discriminate Hl; vm_compute; split; discriminate. Qed.

(** The engine's conversion is base 26 on one to three letters, read without
    regard to case, and raises on every other string. *)
Lemma column_index_from_string_spec (col : string) :
  column_index_from_string col
  = if is_column_name col then Ok (base26 (upper col))
    else Raise (ValueError (NotAColumnName col)).
Proof.
  destruct col as [|a [|b [|c [|d rest]]]].
  - reflexivity.
  - unfold column_index_from_string, is_column_name, upper, base26.
    cbn -[Z.add Z.mul Z.ltb]. rewrite letter_pos_upper.
    destruct (is_letter a) eqn:Ha; [| done].
    pose proof (letter_value_upper a Ha).
    cbn -[Z.add Z.mul Z.ltb].
    replace (_ && _) with true by (symmetry; apply andb_true_iff; split; apply Z.ltb_lt; lia).
    f_equal. lia.
  - unfold column_index_from_string, is_column_name, upper, base26.
    cbn -[Z.add Z.mul Z.ltb]. rewrite !letter_pos_upper.
    destruct (is_letter a) eqn:Ha, (is_letter b) eqn:Hb; try done.
    pose proof (letter_value_upper a Ha). pose proof (letter_value_upper b Hb).
    cbn -[Z.add Z.mul Z.ltb].
    replace (_ && _) with true by (symmetry; apply andb_true_iff; split; apply Z.ltb_lt; lia).
    f_equal. lia.
  - unfold column_index_from_string, is_column_name, upper, base26.
    cbn -[Z.add Z.mul Z.ltb]. rewrite !letter_pos_upper.
    destruct (is_letter a) eqn:Ha, (is_letter b) eqn:Hb, (is_letter c) eqn:Hc; try done.
    pose proof (letter_value_upper a Ha). pose proof (letter_value_upper b Hb).
    pose proof (letter_value_upper c Hc).
    cbn -[Z.add Z.mul Z.ltb].
    replace (_ && _) with true by (symmetry; apply andb_true_iff; split; apply Z.ltb_lt; lia).
    f_equal. lia.
  - unfold column_index_from_string, is_column_name.
    assert (3 < Z.of_nat (String.length (String a (String b (String c (String d rest))))))
      as Hlen by (cbn [String.length]; lia).
    apply Z.ltb_lt in Hlen as Hlen'. rewrite Hlen'.
    assert ((Z.of_nat (length (list_ascii_of_string
               (String a (String b (String c (String d rest)))))) <=? 3) = false) as ->.
    { apply Z.leb_gt. cbn [list_ascii_of_string length]. lia. }
    by rewrite andb_false_r.
Qed.



Lemma code_chr (z : Z) : 0 ≤ z < 256 → code (chr z) = z.
Proof.
  intros Hz. unfold code, chr. rewrite N_ascii_embedding; [lia |].
  apply N2Z.inj_lt. rewrite Z2N.id by lia. cbn. lia.
Qed.

Lemma capital_facts (v : Z) :
  1 ≤ v ≤ 26 →
  is_upper (capital v) = true ∧ upper_char (capital v) = capital v
  ∧ letter_value (capital v) = v.
Proof.
  intros Hv. unfold is_upper, upper_char, is_lower, letter_value, capital.
  rewrite !code_chr by lia. split_and!.
  - apply andb_true_iff. split; apply Z.leb_le; lia.
  - assert ((97 <=? v + 64) = false) as -> by (apply Z.leb_gt; lia). done.
  - lia.
Qed.

(** One round of the loop of [get_column_letter]: it puts one capital in
    front and goes on with the rest of the number. *)
Lemma letters_step (col_idx : Z) :
  0 < col_idx →
  ∃ v next, 1 ≤ v ≤ 26 ∧ 0 ≤ next ∧ col_idx = 26 * next + v
            ∧ ∀ rounds letters,
                letters_loop (S rounds) col_idx letters
                = letters_loop rounds next (capital v :: letters).
Proof.
  intros Hpos. pose proof (Z.div_mod col_idx 26 ltac:(lia)) as Hdm.
  pose proof (Z.mod_pos_bound col_idx 26 ltac:(lia)) as Hmod.
  destruct (col_idx mod 26 =? 0) eqn:Hz.
  - apply Z.eqb_eq in Hz. exists 26, (col_idx / 26 - 1). split_and!; try lia.
    intros rounds letters. cbn [letters_loop].
    assert ((0 <? col_idx) = true) as -> by (apply Z.ltb_lt; lia).
    assert ((col_idx mod 26 =? 0) = true) as -> by (apply Z.eqb_eq; lia). done.
  - apply Z.eqb_neq in Hz. assert (0 ≤ col_idx / 26) by (apply Z.div_pos; lia).
    exists (col_idx mod 26), (col_idx / 26). split_and!; try lia.
    intros rounds letters. cbn [letters_loop].
    assert ((0 <? col_idx) = true) as -> by (apply Z.ltb_lt; lia).
    assert ((col_idx mod 26 =? 0) = false) as -> by (apply Z.eqb_neq; lia). done.
Qed.

Lemma letters_loop_done (rounds : nat) (letters : list ascii) :
  letters_loop rounds 0 letters = letters.
Proof. by destruct rounds. Qed.

(** The letters of a column number: one to three capitals that spell it. *)
Lemma letters_loop_spec (idx : Z) :
  1 ≤ idx ≤ 18278 →
  ∃ positions, letters_loop 3 idx [] = capital <$> positions
               ∧ (1 ≤ length positions ≤ 3)%nat
               ∧ Forall (λ v, 1 ≤ v ≤ 26) positions
               ∧ spelled positions = idx.
Proof.
  intros Hidx. unfold spelled.
  destruct (letters_step idx ltac:(lia)) as (v1 & n1 & Hv1 & Hn1 & Hidx1 & Hstep1).
  rewrite Hstep1. destruct (decide (n1 = 0)) as [-> | Hne1].
  { exists [v1]. rewrite letters_loop_done. split; [done |].
    split; [cbn; lia |]. split; [| cbn; lia].
    constructor; [lia | constructor]. }
  destruct (letters_step n1 ltac:(lia)) as (v2 & n2 & Hv2 & Hn2 & Hidx2 & Hstep2).
  rewrite Hstep2. destruct (decide (n2 = 0)) as [-> | Hne2].
  { exists [v2; v1]. rewrite letters_loop_done. split; [done |].
    split; [cbn; lia |]. split; [| cbn; lia].
    constructor; [lia |]. constructor; [lia | constructor]. }
  destruct (letters_step n2 ltac:(lia)) as (v3 & n3 & Hv3 & Hn3 & Hidx3 & Hstep3).
  rewrite Hstep3. assert (n3 = 0) as -> by lia.
  exists [v3; v2; v1]. rewrite letters_loop_done. split; [done |].
  split; [cbn; lia |]. split; [| cbn; lia].
  constructor; [lia |]. constructor; [lia |]. constructor; [lia | constructor].
Qed.

Lemma capitals_are_upper (positions : list Z) :
  Forall (λ v, 1 ≤ v ≤ 26) positions →
  forallb is_upper (capital <$> positions) = true.
Proof.
  induction 1 as [|v rest Hv _ IH]; [done |]. cbn [fmap list_fmap forallb].
  destruct (capital_facts v Hv) as (-> & _ & _). exact IH.
Qed.

Lemma capitals_stay_upper (positions : list Z) :
  Forall (λ v, 1 ≤ v ≤ 26) positions →
  upper_char <$> (capital <$> positions) = capital <$> positions.
Proof.
  induction 1 as [|v rest Hv _ IH]; [done |]. cbn [fmap list_fmap] in *.
  destruct (capital_facts v Hv) as (_ & -> & _). by rewrite IH.
Qed.

Lemma base26_capitals (positions : list Z) (acc : Z) :
  Forall (λ v, 1 ≤ v ≤ 26) positions →
  fold_left (λ acc ch, acc * 26 + letter_value ch) (capital <$> positions) acc
  = fold_left (λ acc v, acc * 26 + v) positions acc.
Proof.
  intros Hall. revert acc. induction Hall as [|v rest Hv _ IH]; intros acc; [done |].
  cbn [fmap list_fmap fold_left] in *.
  destruct (capital_facts v Hv) as (_ & _ & ->). apply IH.
Qed.

(** Every column number the engine has letters for comes back from them. *)
Lemma column_letters_round_trip (idx : Z) :
  1 ≤ idx ≤ 18278 →
  ∃ letters, get_column_letter idx = Ok letters
             ∧ column_index_from_string letters = Ok idx.
Proof.
  intros Hidx. unfold get_column_letter.
  assert ((1 <=? idx) && (idx <=? 18278) = true) as ->.
  { apply andb_true_iff. split; apply Z.leb_le; lia. }
  eexists. split; [reflexivity |].
  destruct (letters_loop_spec idx Hidx) as (positions & -> & Hlen & Hall & Hspell).
  rewrite column_index_from_string_spec. unfold is_column_name, upper.
  rewrite list_ascii_of_string_of_list_ascii, length_fmap.
  assert ((1 <=? Z.of_nat (length positions)) = true) as -> by (apply Z.leb_le; lia).
  assert ((Z.of_nat (length positions) <=? 3) = true) as -> by (apply Z.leb_le; lia).
  assert (forallb is_letter (capital <$> positions) = true) as ->.
  { pose proof (capitals_are_upper positions Hall) as Hup.
    rewrite forallb_forall in Hup |- *. intros ch Hch.
    unfold is_letter. by rewrite (Hup ch Hch). }
  cbn [andb]. f_equal. rewrite (capitals_stay_upper positions Hall).
  unfold base26. by rewrite (base26_capitals positions 0 Hall).
Qed.

(** ** The facade's methods *)

Section Methods.
Context `{Engine}.

(** The statements of a cell write once the cell object is at hand. *)
Lemma write_tail (r c : Z) (v : pyvalue) (fmt : option string) (ws : Worksheet) :
  (∀ f, fmt = Some f → number_format_ok f = true) →
  (set_value (r, c) v;;
   match fmt with
   | Some f =>
       try_except (set_number_format (r, c) f) is_ValueError
         (λ e, raise (ValueError (InvalidNumberFormat f (str e))))
   | None => mret tt
   end;;
   set_border (r, c) thin_border) (touch (r, c) ws)
  = (Ok tt, store (r, c) v fmt ws).
Proof.
  intros Hfmt. st_unfold. unfold set_value, set_border, modify. cbn.
  rewrite alter_touch. destruct fmt as [f|]; cbn.
  - unfold set_number_format. rewrite (Hfmt f eq_refl). unfold modify. cbn.
    by rewrite !alter_inserted.
  - by rewrite alter_inserted.
Qed.

Lemma checked_column_ok {S} (r : Z) (column : column_arg) (c : Z) (s : S) :
  resolve_column column = Ok c → 1 ≤ r → 1 ≤ c →
  checked_column r column s = (Ok c, s).
Proof.
  intros Hres Hr Hc. unfold checked_column. st_unfold. rewrite Hres.
  by rewrite (ltb_1_false c Hc), (ltb_1_false r Hr).
Qed.

(** The address check never touches the state, and fails only with the
    facade's column-specification error. *)
Lemma checked_column_cases {S} (r : Z) (column : column_arg) (s : S) :
  (∃ c, resolve_column column = Ok c ∧ 1 ≤ r ∧ 1 ≤ c
        ∧ checked_column r column s = (Ok c, s))
  ∨ (∃ m, checked_column r column s = (Raise (ValueError (InvalidColumnSpec m)), s)).
Proof.
  unfold checked_column. st_unfold.
  destruct (resolve_column_cases column) as [(c & Hres) | (col & -> & Hres)];
    rewrite Hres; cbn; [| right; eauto].
  destruct (c <? 1) eqn:Hc; cbn; [right; eauto |].
  destruct (r <? 1) eqn:Hr; cbn; [right; eauto |].
  left. exists c. apply Z.ltb_ge in Hc, Hr. repeat split; (done || lia).
Qed.

(** Every read and write opens the same way: the sheet must be listed, then
    [wb[sheet_name]] yields the sheet object. *)
Lemma enter_sheet {A} (s : string) (w : Workbook) (i : nat) (sheet : Worksheet)
    (e : exn) (k : nat → St Workbook A) :
  sheet_at s w i sheet →
  (names ← gets sheetnames;
   if negb (bool_decide (s ∈ names)) then raise e
   else ws ← wb_getitem s; k ws) w
  = k i w.
Proof.
  intros (Hin & Hfind & _). rewrite bind_gets, (bool_decide_true _ Hin). cbn.
  apply bind_ok. unfold wb_getitem. by rewrite Hfind.
Qed.

Lemma enter_missing {A} (s : string) (w : Workbook) (e : exn) (k : nat → St Workbook A) :
  s ∉ sheetnames w →
  (names ← gets sheetnames;
   if negb (bool_decide (s ∈ names)) then raise e
   else ws ← wb_getitem s; k ws) w
  = (Raise e, w).
Proof. intros Hnin. by rewrite bind_gets, (bool_decide_false _ Hnin). Qed.

Lemma write_cell_ok (s : string) (r : Z) (column : column_arg) (c : Z) (v : pyvalue)
    (fmt : option string) (w : Workbook) (i : nat) (sheet : Worksheet) :
  sheet_at s w i sheet → resolve_column column = Ok c → 1 ≤ r → 1 ≤ c →
  (∀ f, given fmt = Some f → number_format_ok f = true) →
  write_cell s r column v fmt w = (Ok tt, <[i := store (r, c) v (given fmt) sheet]> w).
Proof.
  intros Hat Hres Hr Hc Hfmt. unfold write_cell.
  rewrite (enter_sheet s w i sheet _ _ Hat).
  rewrite (bind_ok _ _ _ _ _ (checked_column_ok r column c w Hres Hr Hc)).
  rewrite (on_sheet_at _ w i sheet (proj2 (proj2 Hat))).
  rewrite (bind_ok _ _ _ _ _ (ws_cell_touch r c sheet Hr Hc)).
  by rewrite (write_tail r c v (given fmt) sheet Hfmt).
Qed.

Lemma read_cell_ok (s : string) (r : Z) (column : column_arg) (c : Z)
    (w : Workbook) (i : nat) (sheet : Worksheet) :
  sheet_at s w i sheet → resolve_column column = Ok c → 1 ≤ r → 1 ≤ c →
  read_cell s r column w = (Ok (cell_value (r, c) sheet), <[i := touch (r, c) sheet]> w).
Proof.
  intros Hat Hres Hr Hc. unfold read_cell.
  rewrite (enter_sheet s w i sheet _ _ Hat).
  rewrite (bind_ok _ _ _ _ _ (checked_column_ok r column c w Hres Hr Hc)).
  rewrite (on_sheet_at _ w i sheet (proj2 (proj2 Hat))).
  rewrite (bind_ok _ _ _ _ _ (ws_cell_touch r c sheet Hr Hc)).
  unfold gets. cbn. by rewrite cell_value_touch.
Qed.

Lemma try_except_ok {S A} (body : St S A) (catches : exn → bool)
    (handler : exn → St S A) (s s' : S) (a : A) :
  body s = (Ok a, s') → try_except body catches handler s = (Ok a, s').
Proof. intros Hb. unfold try_except. by rewrite Hb. Qed.

Lemma write_cell_a1_ok (s ref : string) (r c : Z) (v : pyvalue)
    (fmt : option string) (w : Workbook) (i : nat) (sheet : Worksheet) :
  sheet_at s w i sheet → cell_of_reference ref = Some (r, c) →
  (∀ f, given fmt = Some f → number_format_ok f = true) →
  write_cell_a1 s ref v fmt w = (Ok tt, <[i := store (r, c) v (given fmt) sheet]> w).
Proof.
  intros Hat Href Hfmt. unfold write_cell_a1.
  rewrite (enter_sheet s w i sheet _ _ Hat).
  rewrite (on_sheet_at _ w i sheet (proj2 (proj2 Hat))).
  rewrite (bind_ok _ _ _ _ _
             (try_except_ok _ _ _ _ _ _ (ws_getitem_cell ref r c sheet Href))).
  cbn [item_set_value item_set_number_format item_set_border].
  by rewrite (write_tail r c v (given fmt) sheet Hfmt).
Qed.

Lemma read_cell_a1_ok (s ref : string) (r c : Z)
    (w : Workbook) (i : nat) (sheet : Worksheet) :
  sheet_at s w i sheet → cell_of_reference ref = Some (r, c) →
  read_cell_a1 s ref w = (Ok (cell_value (r, c) sheet), <[i := touch (r, c) sheet]> w).
Proof.
  intros Hat Href. unfold read_cell_a1.
  rewrite (enter_sheet s w i sheet _ _ Hat).
  rewrite (on_sheet_at _ w i sheet (proj2 (proj2 Hat))).
  rewrite (bind_ok _ _ _ _ _ (ws_getitem_cell ref r c sheet Href)).
  unfold item_get_value, gets. cbn. by rewrite cell_value_touch.
Qed.

End Methods.


Example reference_B2 : cell_of_reference "B2" = Some (2, 2).
Proof. reflexivity. Qed.
Example reference_absolute : cell_of_reference "$b$2" = Some (2, 2).
Proof. reflexivity. Qed.
Example reference_AA10 : cell_of_reference "AA10" = Some (10, 27).
Proof. reflexivity. Qed.
Example reference_range : cell_of_reference "A1:B2" = None.
Proof. reflexivity. Qed.
Example reference_column : cell_of_reference "A" = None.
Proof. reflexivity. Qed.

(** ** References in their usual spelling *)

Lemma int_snoc (digits : list ascii) (d : ascii) :
  int (app digits [d]) = int digits * 10 + (code d - 48).
Proof. unfold int. by rewrite fold_left_app. Qed.

Lemma digits_loop_acc (rounds : nat) (n : Z) (digits : list ascii) :
  digits_loop rounds n digits = app (digits_loop rounds n []) digits.
Proof.
  revert n digits. induction rounds as [|rounds IH]; intros n digits; [done |].
  cbn [digits_loop]. destruct (n <? 10); [done |].
  rewrite (IH (n / 10) (_ :: digits)), (IH (n / 10) [_]).
  by rewrite <- app_assoc.
Qed.

Lemma int_digits_loop (rounds : nat) (n : Z) :
  0 ≤ n → n ≤ Z.of_nat rounds → (0 < rounds)%nat →
  int (digits_loop rounds n []) = n.
Proof.
  revert n. induction rounds as [|rounds IH]; intros n Hn Hfuel Hpos; [lia |].
  cbn [digits_loop]. destruct (n <? 10) eqn:Hsmall.
  - apply Z.ltb_lt in Hsmall. unfold int. cbn [fold_left].
    rewrite code_chr by lia. lia.
  - apply Z.ltb_ge in Hsmall.
    rewrite digits_loop_acc, int_snoc, IH.
    + rewrite code_chr by (pose proof (Z.mod_pos_bound n 10); lia).
      pose proof (Z.div_mod n 10). lia.
    + apply Z.div_pos; lia.
    + assert (n / 10 < n) by (apply Z.div_lt; lia). lia.
    + lia.
Qed.

Lemma int_decimal (n : Z) : 1 ≤ n → int (decimal n) = n.
Proof. intros Hn. unfold decimal. apply int_digits_loop; lia. Qed.

Lemma is_digit_chr (z : Z) : 0 ≤ z < 10 → is_digit (chr (z + 48)) = true.
Proof.
  intros Hz. unfold is_digit. rewrite code_chr by lia.
  apply andb_true_iff. split; apply Z.leb_le; lia.
Qed.

Lemma digits_loop_digits (rounds : nat) (n : Z) (digits : list ascii) :
  0 ≤ n → forallb is_digit digits = true →
  forallb is_digit (digits_loop rounds n digits) = true.
Proof.
  revert n digits. induction rounds as [|rounds IH]; intros n digits Hn Hds; [done |].
  cbn [digits_loop]. destruct (n <? 10) eqn:Hsmall.
  - apply Z.ltb_lt in Hsmall. cbn [forallb]. by rewrite is_digit_chr by lia.
  - apply IH; [apply Z.div_pos; lia |]. cbn [forallb].
    by rewrite is_digit_chr by (pose proof (Z.mod_pos_bound n 10); lia).
Qed.

Lemma decimal_cons (n : Z) : 1 ≤ n → ∃ d rest, decimal n = d :: rest.
Proof.
  intros Hn. unfold decimal.
  destruct (Z.to_nat n) as [|rounds] eqn:Hrounds; [lia |].
  cbn [digits_loop]. destruct (n <? 10); [by eexists _, _ |].
  rewrite digits_loop_acc.
  destruct (digits_loop rounds (n / 10) []); by eexists _, _.
Qed.

Lemma skip_dollar_other (ch : ascii) (l : list ascii) :
  is_letter ch || is_digit ch = true → skip_dollar (ch :: l) = ch :: l.
Proof. each_char ch; intros Hch; (done || discriminate Hch). Qed.

Lemma digit_is_no_letter (ch : ascii) : is_digit ch = true → is_letter ch = false.
Proof. each_char ch; intros Hch; (done || discriminate Hch). Qed.

Lemma upper_is_letter (ch : ascii) : is_upper ch = true → is_letter ch = true.
Proof. intros Hch. unfold is_letter. by rewrite Hch. Qed.

Lemma no_colon_letter_or_digit (ch : ascii) :
  is_letter ch || is_digit ch = true → Ascii.eqb ":" ch = false.
Proof. each_char ch; intros Hch; (done || discriminate Hch). Qed.

Lemma take_all_digits (digits : list ascii) :
  forallb is_digit digits = true → take_all is_digit digits = (digits, []).
Proof.
  induction digits as [|d rest IH]; [done |]. cbn [forallb take_all].
  intros [Hd Hrest]%andb_true_iff. by rewrite Hd, (IH Hrest).
Qed.

(** Scanning one to three letters followed by digits gives the two groups. *)
Lemma scan_coordinate_spelled (letters digits : list ascii) (d : ascii) (rest : list ascii) :
  (1 ≤ length letters ≤ 3)%nat → forallb is_upper letters = true →
  digits = d :: rest → forallb is_digit digits = true →
  scan_coordinate (app letters digits) = (Some letters, Some digits, []).
Proof.
  intros Hlen Hletters -> Hdigits. unfold scan_coordinate.
  pose proof Hdigits as Hd. cbn [forallb] in Hd. apply andb_true_iff in Hd as [Hd _].
  pose proof (digit_is_no_letter d Hd) as Hnl.
  assert (skip_dollar (d :: rest) = d :: rest) as Hskip.
  { apply skip_dollar_other. by rewrite Hd, orb_true_r. }
  destruct letters as [|a [|b [|c [|x more]]]]; cbn [length] in Hlen; try lia;
    cbn [forallb] in Hletters;
    repeat (apply andb_true_iff in Hletters as [?%upper_is_letter Hletters]).
  - cbn [app]. rewrite skip_dollar_other by (by rewrite H).
    cbn [take_upto]. rewrite H, Hnl. cbn [group].
    by rewrite Hskip, (take_all_digits _ Hdigits).
  - cbn [app]. rewrite skip_dollar_other by (by rewrite H).
    cbn [take_upto]. rewrite H, H0, Hnl. cbn [group].
    by rewrite Hskip, (take_all_digits _ Hdigits).
  - cbn [app]. rewrite skip_dollar_other by (by rewrite H).
    cbn [take_upto]. rewrite H, H0, H1. cbn [group].
    by rewrite Hskip, (take_all_digits _ Hdigits).
Qed.

Lemma contains_no_colon (chars : list ascii) :
  forallb (λ ch, is_letter ch || is_digit ch) chars = true →
  existsb (Ascii.eqb ":"%char) chars = false.
Proof.
  induction chars as [|ch rest IH]; [done |]. cbn [forallb existsb].
  intros [Hch Hrest]%andb_true_iff.
  by rewrite (no_colon_letter_or_digit ch Hch), (IH Hrest).
Qed.

(** The usual spelling of the cell at (r, c) is read back as that cell. *)
Lemma cell_of_coordinate (r c : Z) :
  1 ≤ r → 1 ≤ c ≤ 18278 →
  ∃ ref, coordinate r c = Ok ref ∧ cell_of_reference ref = Some (r, c).
Proof.
  intros Hr Hc. unfold coordinate.
  destruct (column_letters_round_trip c Hc) as (letters & Hletters & Hback).
  rewrite Hletters. eexists. split; [reflexivity |].
  destruct (letters_loop_spec c Hc) as (positions & Hloop & Hlen & Hall & _).
  unfold get_column_letter in Hletters. rewrite Hloop in Hletters.
  destruct ((1 <=? c) && (c <=? 18278)); [| done]. injection Hletters as <-.
  pose proof (capitals_are_upper positions Hall) as Hupper.
  rewrite list_ascii_of_string_of_list_ascii.
  destruct (decimal_cons r Hr) as (d & rest & Hdec).
  assert (forallb is_digit (decimal r) = true) as Hdigits
    by (apply digits_loop_digits; [lia | done]).
  unfold cell_of_reference, range_boundaries, ABSOLUTE_RE_match, contains_colon.
  rewrite list_ascii_of_string_of_list_ascii.
  rewrite (scan_coordinate_spelled (capital <$> positions) (decimal r) d rest);
    [| by rewrite length_fmap | done..].
  cbn [g_sep g_min_col g_min_row g_max_col g_max_row present andb orb negb at_end].
  rewrite Hback. cbn [mbind result_bind fmap result_fmap option_fmap option_map].
  rewrite (int_decimal r Hr).
  rewrite contains_no_colon; [done |].
  rewrite forallb_app. apply andb_true_iff. split.
  - rewrite forallb_forall in Hupper |- *. intros ch Hch.
    by rewrite (upper_is_letter ch (Hupper ch Hch)).
  - rewrite forallb_forall in Hdigits |- *. intros ch Hch.
    by rewrite (Hdigits ch Hch), orb_true_r.
Qed.

Example coordinate_B2 : coordinate 2 2 = Ok "B2".
Proof. reflexivity. Qed.
Example coordinate_AA10 : coordinate 10 27 = Ok "AA10".
Proof. reflexivity. Qed.

Lemma sheet_at_new : sheet_at "Sheet" Workbook_new 0 (new_worksheet "Sheet").
Proof. repeat split. cbn. apply list_elem_of_here. Defined.

(** ** Range bounds *)

Lemma checked_range_ok {S} (sr er c1 c2 : Z) (sc ec : column_arg) (s : S) :
  1 ≤ sr → sr ≤ er → resolve_column sc = Ok c1 → resolve_column ec = Ok c2 →
  1 ≤ c1 → c1 ≤ c2 →
  checked_range sr sc er ec s = (Ok (c1, c2), s).
Proof.
  intros Hsr Her Hsc Hec Hc1 Hc2. unfold checked_range. st_unfold.
  rewrite (ltb_1_false sr Hsr), (ltb_1_false er) by lia. cbn.
  assert ((er <? sr) = false) as -> by (apply Z.ltb_ge; lia).
  rewrite Hsc, Hec.
  rewrite (ltb_1_false c1 Hc1), (ltb_1_false c2) by lia. cbn.
  assert ((c2 <? c1) = false) as -> by (apply Z.ltb_ge; lia). done.
Qed.

(** The bounds check never touches the state; it passes exactly when there
    is no fault, and fails only with the facade's range error. *)
Lemma checked_range_cases {S} (sr er : Z) (sc ec : column_arg) (s : S) :
  (∃ c1 c2, checked_range sr sc er ec s = (Ok (c1, c2), s)
            ∧ ¬ range_fault sr sc er ec
            ∧ resolve_column sc = Ok c1 ∧ resolve_column ec = Ok c2
            ∧ 1 ≤ sr ≤ er ∧ 1 ≤ c1 ≤ c2)
  ∨ (∃ m, checked_range sr sc er ec s = (Raise (ValueError (InvalidRangeSpec m)), s)
          ∧ range_fault sr sc er ec).
Proof.
  unfold checked_range, range_fault. st_unfold.
  destruct (sr <? 1) eqn:Hsr; cbn.
  { right. apply Z.ltb_lt in Hsr. eauto. }
  destruct (er <? 1) eqn:Her; cbn.
  { right. apply Z.ltb_lt in Her. eauto. }
  destruct (er <? sr) eqn:Hord; cbn.
  { right. apply Z.ltb_lt in Hord. eauto 6. }
  apply Z.ltb_ge in Hsr, Her, Hord.
  destruct (resolve_column_cases sc) as [(c1 & Hsc) | (col & -> & Hsc)];
    rewrite Hsc; cbn; [| right; eauto 8].
  destruct (resolve_column_cases ec) as [(c2 & Hec) | (col & -> & Hec)];
    rewrite Hec; cbn; [| right; eexists; split; [done |]; do 4 right; left; eauto].
  destruct (c1 <? 1) eqn:Hc1; cbn.
  { right. apply Z.ltb_lt in Hc1. eexists. split; [done |]. eauto 12. }
  destruct (c2 <? 1) eqn:Hc2; cbn.
  { right. apply Z.ltb_lt in Hc2. eexists. split; [done |]. eauto 12. }
  destruct (c2 <? c1) eqn:Hc; cbn.
  { right. apply Z.ltb_lt in Hc. eexists. split; [done |]. eauto 12. }
  apply Z.ltb_ge in Hc1, Hc2, Hc.
  left. exists c1, c2. repeat split; try (done || lia).
  intros [? | [? | [? | [[e He] | [[e He] | (d1 & d2 & Hd1 & Hd2 & Hd)]]]]];
    try lia; try congruence.
  simplify_eq. lia.
Qed.


(** ** Reading a block *)

Lemma same_values_refl (ws : Worksheet) : same_values ws ws.
Proof. by split. Qed.

Lemma same_values_trans (a b c : Worksheet) :
  same_values a b → same_values b c → same_values a c.
Proof.
  intros [Ht1 Hv1] [Ht2 Hv2]. split; [congruence |].
  intros coord. by rewrite Hv2, Hv1.
Qed.

Lemma same_values_touch (coord : Z * Z) (ws : Worksheet) : same_values ws (touch coord ws).
Proof. split; [apply title_touch |]. intros. apply cell_value_touch. Qed.

Lemma or_default_pos (z d : Z) : 1 ≤ z → or_default (Some z) d = z.
Proof.
  intros Hz. unfold or_default. destruct (z =? 0) eqn:H0; [| done].
  apply Z.eqb_eq in H0. lia.
Qed.

Lemma range_incl_lower (lo hi : Z) : Forall (λ z, lo ≤ z) (range_incl lo hi).
Proof.
  apply Forall_forall. intros z Hz. apply elem_of_seqZ in Hz. lia.
Qed.


(** One row of the block: every cell of the row is visited, none is given a
    value. *)
Lemma row_values (r : Z) (cols : list Z) (ws : Worksheet) :
  1 ≤ r → Forall (λ c, 1 ≤ c) cols →
  ∃ ws', for_collect cols (λ column, cell ← ws_cell r column; the_value cell) ws
         = (Ok ((λ c, cell_value (r, c) ws) <$> cols), ws')
         ∧ same_values ws ws'.
Proof.
  intros Hr Hcols. revert ws. induction Hcols as [|c cols Hc _ IH]; intros ws.
  - exists ws. split; [done | apply same_values_refl].
  - destruct (IH (touch (r, c) ws)) as (ws' & Hrest & Hsame).
    exists ws'. split; [| by eapply same_values_trans; [apply same_values_touch |]].
    cbn [for_collect].
    rewrite (bind_ok _ _ ws (touch (r, c) ws) (cell_value (r, c) ws)).
    + rewrite (bind_ok _ _ _ _ _ Hrest).
      assert (((λ c0, cell_value (r, c0) (touch (r, c) ws)) <$> cols)
              = ((λ c0, cell_value (r, c0) ws) <$> cols)) as ->; [| done].
      apply list_fmap_ext. intros _ c' _. apply cell_value_touch.
    + rewrite (bind_ok _ _ _ _ _ (ws_cell_touch r c ws Hr Hc)).
      unfold the_value, gets. by rewrite cell_value_touch.
Qed.

Lemma cells_by_row_values (min_col min_row max_col max_row : Z) (ws : Worksheet) :
  1 ≤ min_row → 1 ≤ min_col →
  ∃ ws', _cells_by_row min_col min_row max_col max_row the_value ws
         = (Ok (block ws min_row max_row min_col max_col), ws')
         ∧ same_values ws ws'.
Proof.
  intros Hrow Hcol. unfold _cells_by_row, block.
  pose proof (range_incl_lower min_row max_row) as Hrows.
  revert ws. induction Hrows as [|r rows Hr _ IH]; intros ws.
  - exists ws. split; [done | apply same_values_refl].
  - destruct (row_values r (range_incl min_col max_col) ws) as (ws1 & Hfirst & Hs1).
    { lia. }
    { eapply Forall_impl; [apply range_incl_lower |]. cbn. intros; lia. }
    destruct (IH ws1) as (ws' & Hrest & Hs2).
    exists ws'. split; [| by eapply same_values_trans].
    cbn [for_collect]. rewrite (bind_ok _ _ _ _ _ Hfirst), (bind_ok _ _ _ _ _ Hrest).
    assert (((λ r0, (λ c, cell_value (r0, c) ws1) <$> range_incl min_col max_col) <$> rows)
            = ((λ r0, (λ c, cell_value (r0, c) ws) <$> range_incl min_col max_col) <$> rows))
      as ->; [| done].
    apply list_fmap_ext. intros _ r' _.
    apply list_fmap_ext. intros _ c' _. apply Hs1.
Qed.

Lemma read_range_ok (s : string) (sr er c1 c2 : Z) (sc ec : column_arg)
    (w : Workbook) (i : nat) (sheet : Worksheet) :
  sheet_at s w i sheet → 1 ≤ sr → sr ≤ er →
  resolve_column sc = Ok c1 → resolve_column ec = Ok c2 → 1 ≤ c1 → c1 ≤ c2 →
  ∃ sheet', read_range s sr sc er ec w = (Ok (block sheet sr er c1 c2), <[i := sheet']> w)
            ∧ same_values sheet sheet'.
Proof.
  intros Hat Hsr Her Hsc Hec Hc1 Hc2. unfold read_range.
  rewrite (enter_sheet s w i sheet _ _ Hat).
  rewrite (bind_ok _ _ _ _ _ (checked_range_ok sr er c1 c2 sc ec w Hsr Her Hsc Hec Hc1 Hc2)).
  rewrite (on_sheet_at _ w i sheet (proj2 (proj2 Hat))).
  unfold iter_rows. rewrite !or_default_pos by lia.
  destruct (cells_by_row_values c1 sr c2 er sheet Hsr Hc1) as (sheet' & Hrows & Hsame).
  exists sheet'. by rewrite Hrows.
Qed.

(** ** Failing addresses *)

Lemma on_sheet_raise {A} (m : St Worksheet A) (w : Workbook) (i : nat)
    (sheet : Worksheet) (e : exn) :
  w !! i = Some sheet → m sheet = (Raise e, sheet) → on_sheet i m w = (Raise e, w).
Proof.
  intros Hl Hm. rewrite (on_sheet_at m w i sheet Hl), Hm. cbn.
  by rewrite (list_insert_id w i sheet Hl).
Qed.



Section Failures.
Context `{Engine}.




(** On a reference the engine cannot parse, [write_cell_a1] raises the
    facade's invalid-reference error, while [read_cell_a1], which has no
    [except] clause, lets the engine's exception through. *)
Lemma write_cell_a1_unparsable (s ref : string) (v : pyvalue) (fmt : option string)
    (w : Workbook) (i : nat) (sheet : Worksheet) :
  sheet_at s w i sheet → unparsable ref →
  write_cell_a1 s ref v fmt w
  = (Raise (ValueError (InvalidCellReference ref (NotACoordinateOrRange ref))), w).
Proof.
  intros Hat Href. unfold write_cell_a1. rewrite (enter_sheet s w i sheet _ _ Hat).
  apply (on_sheet_raise _ w i sheet); [apply Hat |].
  apply bind_raise. unfold try_except, ws_getitem. st_unfold. by rewrite Href.
Qed.

Lemma read_cell_a1_unparsable (s ref : string)
    (w : Workbook) (i : nat) (sheet : Worksheet) :
  sheet_at s w i sheet → unparsable ref →
  read_cell_a1 s ref w = (Raise (ValueError (NotACoordinateOrRange ref)), w).
Proof.
  intros Hat Href. unfold read_cell_a1. rewrite (enter_sheet s w i sheet _ _ Hat).
  apply (on_sheet_raise _ w i sheet); [apply Hat |].
  apply bind_raise. unfold ws_getitem. st_unfold. by rewrite Href.
Qed.

End Failures.

(** ** Creating a sheet *)

Lemma create_sheet_listed `{Engine} (w : Workbook) (n : string)
    (headers : option (list string)) :
  n ∈ sheetnames w →
  create_sheet n headers w = (Raise (ValueError (SheetAlreadyExists n)), w).
Proof.
  intros Hin. unfold create_sheet. by rewrite bind_gets, (bool_decide_true _ Hin).
Qed.

Section Headers.
Context `{Engine}.



End Headers.

(** ** Writing a block *)








(** ** Failing after a mutation, or before *)

Lemma for_collect_ok {S A B} (xs : list A) (body : A → St S B) :
  (∀ x s, x ∈ xs → ∃ b s', body x s = (Ok b, s')) →
  ∀ s, ∃ bs s', for_collect xs body s = (Ok bs, s').
Proof.
  induction xs as [|x rest IH]; intros Hbody s.
  - by exists [], s.
  - destruct (Hbody x s) as (b & s1 & Hb); [apply list_elem_of_here |].
    destruct (IH (λ y t Hy, Hbody y t (list_elem_of_further _ _ _ Hy)) s1)
      as (bs & s2 & Hbs).
    exists (b :: bs), s2. cbn [for_collect].
    by rewrite (bind_ok _ _ _ _ _ Hb), (bind_ok _ _ _ _ _ Hbs).
Qed.

Lemma range_incl_head (lo hi x : Z) (xs : list Z) : range_incl lo hi = x :: xs → x = lo.
Proof.
  unfold range_incl. destruct (decide (0 < hi + 1 - lo)) as [Hpos | Hneg].
  - rewrite seqZ_cons by done. by intros [= <- _].
  - rewrite seqZ_nil by lia. done.
Qed.

(** A block visited through [ws.cell]: the first cell visited has the least
    row and the least column, so the visit either raises there, before any
    cell is created, or never raises. *)
Lemma visit_block_raise {B} (lo_x hi_x lo_y hi_y : Z) (g : Z → Z → St Worksheet B)
    (ws ws' : Worksheet) (e : exn) :
  (1 ≤ lo_x → 1 ≤ lo_y → ∀ x y s, lo_x ≤ x → lo_y ≤ y → ∃ b s', g x y s = (Ok b, s')) →
  (¬ (1 ≤ lo_x ∧ 1 ≤ lo_y) → ∀ s, ∃ e', g lo_x lo_y s = (Raise e', s)) →
  for_collect (range_incl lo_x hi_x) (λ x, for_collect (range_incl lo_y hi_y) (g x)) ws
  = (Raise e, ws') →
  ws' = ws.
Proof.
  intros Hok Hbad Hraise. destruct (decide (1 ≤ lo_x ∧ 1 ≤ lo_y)) as [[Hx Hy] | Hlow].
  - destruct (for_collect_ok (range_incl lo_x hi_x)
                (λ x, for_collect (range_incl lo_y hi_y) (g x))) with (s := ws)
      as (bs & s' & Hall); [| congruence].
    intros x s Hin. apply for_collect_ok. intros y t Hy'.
    apply elem_of_seqZ in Hin, Hy'. apply Hok; (done || lia).
  - destruct (range_incl lo_y hi_y) as [|y ys] eqn:Hys.
    + destruct (for_collect_ok (range_incl lo_x hi_x)
                  (λ x, for_collect [] (g x))) with (s := ws) as (bs & s' & Hall);
        [| congruence].
      intros x s _. by exists [], s.
    + destruct (range_incl lo_x hi_x) as [|x xs] eqn:Hxs; [done |].
      apply range_incl_head in Hys as ->. apply range_incl_head in Hxs as ->.
      destruct (Hbad Hlow ws) as (e' & He').
      cbn [for_collect] in Hraise.
      rewrite (bind_raise _ _ ws ws e') in Hraise; [congruence |].
      by apply bind_raise.
Qed.

Lemma ws_cell_cases (row column : Z) (ws : Worksheet) :
  (1 ≤ row ∧ 1 ≤ column ∧ ws_cell row column ws = (Ok (row, column), touch (row, column) ws))
  ∨ (¬ (1 ≤ row ∧ 1 ≤ column)
     ∧ ws_cell row column ws = (Raise (ValueError RowOrColumnBelowOne), ws)).
Proof.
  destruct (decide (1 ≤ row ∧ 1 ≤ column)) as [[Hr Hc] | Hlow].
  - left. split_and!; try done. by apply ws_cell_touch.
  - right. split; [done |]. unfold ws_cell.
    destruct (row <? 1) eqn:Hr; [done |]. destruct (column <? 1) eqn:Hc; [done |].
    apply Z.ltb_ge in Hr, Hc. lia.
Qed.

Lemma cells_by_row_raise (min_col min_row max_col max_row : Z) (ws ws' : Worksheet)
    (e : exn) :
  _cells_by_row min_col min_row max_col max_row the_cell ws = (Raise e, ws') → ws' = ws.
Proof.
  unfold _cells_by_row.
  apply (visit_block_raise min_row max_row min_col max_col
           (λ row column, cell ← ws_cell row column; the_cell cell)).
  - intros Hr Hc x y s Hx Hy.
    destruct (ws_cell_cases x y s) as [(_ & _ & Hcell) | [Hlow _]]; [| lia].
    eexists _, _. by rewrite (bind_ok _ _ _ _ _ Hcell).
  - intros Hlow s. destruct (ws_cell_cases min_row min_col s) as [(? & ? & _) | [_ Hcell]];
      [lia |].
    eexists. by apply bind_raise.
Qed.

Lemma cells_by_col_raise (min_col min_row max_col max_row : Z) (ws ws' : Worksheet)
    (e : exn) :
  _cells_by_col min_col min_row max_col max_row the_cell ws = (Raise e, ws') → ws' = ws.
Proof.
  unfold _cells_by_col.
  apply (visit_block_raise min_col max_col min_row max_row
           (λ column row, cell ← ws_cell row column; the_cell cell)).
  - intros Hc Hr x y s Hx Hy.
    destruct (ws_cell_cases y x s) as [(_ & _ & Hcell) | [Hlow _]]; [| lia].
    eexists _, _. by rewrite (bind_ok _ _ _ _ _ Hcell).
  - intros Hlow s. destruct (ws_cell_cases min_row min_col s) as [(? & ? & _) | [_ Hcell]];
      [lia |].
    eexists. by apply bind_raise.
Qed.

Lemma bind_inv {S A B} (m : St S A) (k : A → St S B) (s s' : S) (r : result B) :
  (m ≫= k) s = (r, s') →
  (∃ e, m s = (Raise e, s') ∧ r = Raise e)
  ∨ (∃ a s1, m s = (Ok a, s1) ∧ k a s1 = (r, s')).
Proof.
  st_unfold. destruct (m s) as [[a | e] s1]; intros Hk.
  - right. by exists a, s1.
  - left. exists e. by simplify_eq.
Qed.

Lemma iter_rows_raise (min_row max_row min_col max_col : option Z) (ws ws' : Worksheet)
    (e : exn) :
  iter_rows min_row max_row min_col max_col the_cell ws = (Raise e, ws') → ws' = ws.
Proof. unfold iter_rows. apply cells_by_row_raise. Qed.

Lemma iter_cols_raise (min_col max_col : option Z) (ws ws' : Worksheet) (e : exn) :
  iter_cols min_col max_col the_cell ws = (Raise e, ws') → ws' = ws.
Proof. unfold iter_cols. apply cells_by_col_raise. Qed.

(** [ws[key]] raises before it creates any cell. *)
Lemma ws_getitem_raise (key : string) (ws ws' : Worksheet) (e : exn) :
  ws_getitem key ws = (Raise e, ws') → ws' = ws.
Proof.
  unfold ws_getitem. intros Hget.
  apply bind_inv in Hget as [(e0 & Hb & _) | ([[[min_col min_row] max_col] max_row] & s1 & Hb & Hk)];
    unfold lift in Hb; [by simplify_eq |].
  injection Hb as _ <-.
  destruct (negb _); [unfold raise in Hk; by simplify_eq |].
  destruct min_row as [r|]; [destruct min_col as [c|] |].
  - destruct (negb (contains_colon key)).
    + unfold fmap, St_fmap in Hk. rewrite get_cell_touch in Hk. done.
    + unfold fmap, St_fmap in Hk.
      destruct (iter_rows _ _ _ _ _ ws) as [[rows | e0] s2] eqn:Hrows; [done |].
      apply iter_rows_raise in Hrows. by simplify_eq.
  - rewrite bind_gets in Hk.
    apply bind_inv in Hk as [(e0 & Hrows & _) | (rows & s2 & _ & Hk)].
    + by apply iter_rows_raise in Hrows.
    + by destruct (bool_decide _).
  - apply bind_inv in Hk as [(e0 & Hcols & _) | (cols & s2 & _ & Hk)].
    + by apply iter_cols_raise in Hcols.
    + by destruct (bool_decide _).
Qed.



Section FailedWrites.
Context `{Engine}.

Lemma write_tail_refused (r c : Z) (v : pyvalue) (f : string) (ws : Worksheet) :
  number_format_ok f = false →
  (set_value (r, c) v;;
   try_except (set_number_format (r, c) f) is_ValueError
     (λ e, raise (ValueError (InvalidNumberFormat f (str e))));;
   set_border (r, c) thin_border) (touch (r, c) ws)
  = (Raise (ValueError (InvalidNumberFormat f (EngineMessage f))), store_value (r, c) v ws).
Proof.
  intros Hno. st_unfold. unfold set_value, modify, set_number_format. cbn.
  rewrite Hno. cbn. by rewrite alter_touch.
Qed.




End FailedWrites.
(** ** The claims *)





(** C6. For every workbook and every sheet name n already present in it,
    CreateSheet(n, headers?) fails with DuplicateSheetError and leaves the
    workbook, hence the existing sheet n with its cells, styles and column
    widths, as it was. *)
Theorem create_sheet_duplicate `{Engine} (w : Workbook) (n : string)
    (headers : option (list string)) :
  n ∈ sheetnames w →
  create_sheet n headers w = (Raise (ValueError (SheetAlreadyExists n)), w)
  ∧ classify (ValueError (SheetAlreadyExists n)) = Some DuplicateSheetError.
Proof.
  intros Hin. split; [| done]. by apply create_sheet_listed.
Qed.

Lemma create_sheet_duplicate_witness :
  create_sheet (H := lenient) "Sheet" (Some ["ID"; "Name"]) Workbook_new
  = (Raise (ValueError (SheetAlreadyExists "Sheet")), Workbook_new)
  ∧ classify (ValueError (SheetAlreadyExists "Sheet")) = Some DuplicateSheetError.
Proof.
  apply (create_sheet_duplicate (H := lenient) Workbook_new "Sheet").
  apply list_elem_of_here.
Defined.









(** C8.  The code departs from the claim: on a reference the engine cannot
    parse, ReadCellByReference does not fail with InvalidAddressError as
    WriteCellByReference does; the engine's own exception leaves
    [read_cell_a1] as it is, since that method has no [except] clause. *)
Theorem read_cell_a1_lets_the_engine_error_through :
  read_cell_a1 "Sheet" "2B" Workbook_new
  = (Raise (ValueError (NotACoordinateOrRange "2B")), Workbook_new)
  ∧ ¬ fails_with (read_cell_a1 "Sheet" "2B") Workbook_new InvalidAddressError
  ∧ fails_with (write_cell_a1 (H := lenient) "Sheet" "2B" (PyInt 1) None) Workbook_new
      InvalidAddressError
  ∧ fst (read_cell_a1 "Sheet" "" Workbook_new) = Raise (IndexError (NotACoordinateOrRange "")).
Proof.
  assert (unparsable "2B") as Href by reflexivity.
  split_and!.
  - by apply (read_cell_a1_unparsable "Sheet" "2B" Workbook_new 0 (new_worksheet "Sheet")
                sheet_at_new).
  - intros (e & He & Hk).
    rewrite (read_cell_a1_unparsable "Sheet" "2B" Workbook_new 0 (new_worksheet "Sheet")
               sheet_at_new Href) in He.
    injection He as <-. discriminate Hk.
  - exists (ValueError (InvalidCellReference "2B" (NotACoordinateOrRange "2B"))).
    by rewrite (write_cell_a1_unparsable (H := lenient) "Sheet" "2B" (PyInt 1) None
                  Workbook_new 0 (new_worksheet "Sheet") sheet_at_new Href).
  - reflexivity.
Qed.









(** * Further properties of the facade *)

(** ** Looking a sheet up by its title *)

Lemma find_sheet_Some (s : string) (w : Workbook) (i : nat) :
  find_sheet s w = Some i → ∃ sheet, w !! i = Some sheet ∧ title sheet = s.
Proof.
  revert i. induction w as [|ws rest IH]; intros i; [done |].
  cbn. case_bool_decide as Ht.
  - intros [= <-]. by exists ws.
  - destruct (find_sheet s rest) as [j|]; [| done]. cbn. intros [= <-].
    by apply IH.
Qed.

Lemma find_sheet_listed (s : string) (w : Workbook) (i : nat) :
  find_sheet s w = Some i → s ∈ sheetnames w.
Proof.
  intros Hf. destruct (find_sheet_Some s w i Hf) as (sheet & Hl & <-).
  unfold sheetnames. apply list_elem_of_fmap. exists sheet. split; [done |].
  by eapply list_elem_of_lookup_2.
Qed.

Lemma find_sheet_None (s : string) (w : Workbook) :
  s ∉ sheetnames w → find_sheet s w = None.
Proof.
  intros Hnin. destruct (find_sheet s w) as [i|] eqn:Hf; [| done].
  by apply find_sheet_listed in Hf.
Qed.

Lemma sheet_at_find (s : string) (w : Workbook) (i : nat) :
  find_sheet s w = Some i → ∃ sheet, sheet_at s w i sheet.
Proof.
  intros Hf. destruct (find_sheet_Some s w i Hf) as (sheet & Hl & _).
  exists sheet. split_and!; try done. by eapply find_sheet_listed.
Qed.

Lemma value_at_sheet (s : string) (w : Workbook) (i : nat) (sheet : Worksheet)
    (coord : Z * Z) :
  sheet_at s w i sheet → value_at w s coord = Some (cell_value coord sheet).
Proof. intros (_ & Hf & Hl). unfold value_at. rewrite Hf. cbn. by rewrite Hl. Qed.

Lemma value_at_missing (s : string) (w : Workbook) (coord : Z * Z) :
  s ∉ sheetnames w → value_at w s coord = None.
Proof. intros Hnin. unfold value_at. by rewrite (find_sheet_None s w Hnin). Qed.


(** [read_cell] on an address that passes the check returns what the
    workbook holds there. *)
Lemma read_cell_value_at (s : string) (r c : Z) (w : Workbook) :
  1 ≤ r → 1 ≤ c →
  fst (read_cell s r (ColInt c) w)
  = match value_at w s (r, c) with
    | Some v => Ok v
    | None => Raise (ValueError (SheetDoesNotExist s))
    end.
Proof.
  intros Hr Hc. destruct (decide (s ∈ sheetnames w)) as [Hin | Hnin].
  - destruct (sheet_at_intro s w Hin) as (i & sheet & Hat).
    rewrite (read_cell_ok s r (ColInt c) c w i sheet Hat eq_refl Hr Hc).
    by rewrite (value_at_sheet s w i sheet (r, c) Hat).
  - rewrite (value_at_missing s w (r, c) Hnin). unfold read_cell.
    by rewrite (enter_missing s w _ _ Hnin).
Qed.

(** ** Computations that keep the values of a sheet *)

Lemma keeps_values_bind {A B} (m : St Worksheet A) (k : A → St Worksheet B) :
  keeps_values m → (∀ a, keeps_values (k a)) → keeps_values (m ≫= k).
Proof.
  intros Hm Hk ws r ws' Hrun.
  apply bind_inv in Hrun as [(e & Hrun & _) | (a & ws1 & Hrun & Hrest)].
  - by eapply Hm.
  - eapply same_values_trans; [by eapply Hm | by eapply Hk].
Qed.

Lemma keeps_values_pure {A} (m : St Worksheet A) :
  (∀ ws, snd (m ws) = ws) → keeps_values m.
Proof.
  intros Hpure ws r ws' Hrun. specialize (Hpure ws). rewrite Hrun in Hpure.
  cbn in Hpure. subst ws'. apply same_values_refl.
Qed.

Lemma keeps_values_fmap {A B} (f : A → B) (m : St Worksheet A) :
  keeps_values m → keeps_values (f <$> m).
Proof.
  intros Hm ws r ws' Hrun. unfold fmap, St_fmap in Hrun.
  destruct (m ws) as [[a | e] ws1] eqn:Hmws; simplify_eq; by eapply Hm.
Qed.

Lemma keeps_values_get_cell (row column : Z) : keeps_values (_get_cell row column).
Proof.
  intros ws r ws' Hrun. rewrite get_cell_touch in Hrun. simplify_eq.
  apply same_values_touch.
Qed.

Lemma keeps_values_ws_cell (row column : Z) : keeps_values (ws_cell row column).
Proof.
  intros ws r ws' Hrun.
  destruct (ws_cell_cases row column ws) as [(_ & _ & Hcell) | [_ Hcell]];
    rewrite Hcell in Hrun; simplify_eq;
    [apply same_values_touch | apply same_values_refl].
Qed.

Lemma keeps_values_for_collect {A B} (xs : list A) (body : A → St Worksheet B) :
  (∀ x, keeps_values (body x)) → keeps_values (for_collect xs body).
Proof.
  intros Hbody. induction xs as [|x rest IH].
  - by apply keeps_values_pure.
  - cbn [for_collect]. apply keeps_values_bind; [apply Hbody |]. intros b.
    apply keeps_values_bind; [apply IH |]. intros bs. by apply keeps_values_pure.
Qed.

Lemma keeps_values_visit {B} (read : Z * Z → St Worksheet B) (row column : Z) :
  (∀ cell, keeps_values (read cell)) →
  keeps_values (cell ← ws_cell row column; read cell).
Proof. intros Hread. apply keeps_values_bind; [apply keeps_values_ws_cell | done]. Qed.

Lemma keeps_values_iter_rows {B} (min_row max_row min_col max_col : option Z)
    (read : Z * Z → St Worksheet B) :
  (∀ cell, keeps_values (read cell)) →
  keeps_values (iter_rows min_row max_row min_col max_col read).
Proof.
  intros Hread ws r ws' Hrun. unfold iter_rows, _cells_by_row in Hrun.
  eapply keeps_values_for_collect; [| exact Hrun].
  intros row. apply keeps_values_for_collect. intros column.
  by apply keeps_values_visit.
Qed.

Lemma keeps_values_iter_cols {B} (min_col max_col : option Z)
    (read : Z * Z → St Worksheet B) :
  (∀ cell, keeps_values (read cell)) →
  keeps_values (iter_cols min_col max_col read).
Proof.
  intros Hread ws r ws' Hrun. unfold iter_cols, _cells_by_col in Hrun.
  eapply keeps_values_for_collect; [| exact Hrun].
  intros column. apply keeps_values_for_collect. intros row.
  by apply keeps_values_visit.
Qed.

Lemma keeps_values_the_cell (cell : Z * Z) : keeps_values (the_cell cell).
Proof. by apply keeps_values_pure. Qed.

Lemma keeps_values_the_value (cell : Z * Z) : keeps_values (the_value cell).
Proof. by apply keeps_values_pure. Qed.

(** Indexing a sheet by a key never changes a value, whatever the key. *)
Lemma keeps_values_ws_getitem (key : string) : keeps_values (ws_getitem key).
Proof.
  unfold ws_getitem. apply keeps_values_bind; [by apply keeps_values_pure |].
  intros [[[min_col min_row] max_col] max_row].
  destruct (negb _); [by apply keeps_values_pure |].
  destruct min_row as [r|]; [destruct min_col as [c|] |].
  - destruct (negb (contains_colon key)); apply keeps_values_fmap.
    + apply keeps_values_get_cell.
    + apply keeps_values_iter_rows, keeps_values_the_cell.
  - apply keeps_values_bind; [by apply keeps_values_pure |]. intros widest.
    apply keeps_values_bind; [apply keeps_values_iter_rows, keeps_values_the_cell |].
    intros rows. destruct (bool_decide _); by apply keeps_values_pure.
  - apply keeps_values_bind; [apply keeps_values_iter_cols, keeps_values_the_cell |].
    intros cols. destruct (bool_decide _); by apply keeps_values_pure.
Qed.

Lemma keeps_values_item_get_value (it : item) : keeps_values (item_get_value it).
Proof. destruct it; by apply keeps_values_pure. Qed.

(** ** From a sheet to the workbook *)

Lemma same_workbook_values_refl (w : Workbook) : same_workbook_values w w.
Proof. by split. Qed.

Lemma same_workbook_values_insert (w : Workbook) (i : nat) (sheet sheet' : Worksheet) :
  w !! i = Some sheet → same_values sheet sheet' →
  same_workbook_values w (<[i := sheet']> w).
Proof.
  intros Hl [Ht Hv]. split; [by apply (sheetnames_insert w i sheet sheet') |].
  intros s coord. unfold value_at.
  rewrite (find_sheet_insert s w i i sheet sheet' Hl Ht).
  destruct (find_sheet s w) as [j|]; [| done]. cbn.
  destruct (decide (j = i)) as [-> | Hji].
  - rewrite list_lookup_insert_eq by (by eapply lookup_lt_Some). rewrite Hl. cbn.
    by rewrite Hv.
  - by rewrite list_lookup_insert_ne.
Qed.

Lemma on_sheet_keeps_values {A} (m : St Worksheet A) (w : Workbook) (i : nat) :
  keeps_values m → same_workbook_values w (snd (on_sheet i m w)).
Proof.
  intros Hm. unfold on_sheet. destruct (w !! i) as [sheet|] eqn:Hl.
  - destruct (m sheet) as [r sheet'] eqn:Hrun. cbn.
    apply (same_workbook_values_insert w i sheet sheet' Hl). by eapply Hm.
  - apply same_workbook_values_refl.
Qed.

(** ** Sheets that are not there *)

(** X1.  On a sheet name the workbook does not list, each of the six read
    and write operations fails with UnknownSheetError, whatever its other
    arguments, and leaves the workbook as it was. *)
Theorem unknown_sheet_is_refused `{Engine} (w : Workbook) (s ref : string) (r sr er : Z)
    (col sc ec : column_arg) (v : pyvalue) (fmt : option string)
    (data : list (list pyvalue)) :
  s ∉ sheetnames w →
  classify (ValueError (SheetDoesNotExist s)) = Some UnknownSheetError
  ∧ write_data s data r w = (Raise (ValueError (SheetDoesNotExist s)), w)
  ∧ write_cell s r col v fmt w = (Raise (ValueError (SheetDoesNotExist s)), w)
  ∧ write_cell_a1 s ref v fmt w = (Raise (ValueError (SheetDoesNotExist s)), w)
  ∧ read_cell s r col w = (Raise (ValueError (SheetDoesNotExist s)), w)
  ∧ read_cell_a1 s ref w = (Raise (ValueError (SheetDoesNotExist s)), w)
  ∧ read_range s sr sc er ec w = (Raise (ValueError (SheetDoesNotExist s)), w).
Proof.
  intros Hnin. split_and!; [done | ..].
  - unfold write_data. by apply enter_missing.
  - unfold write_cell. by apply enter_missing.
  - unfold write_cell_a1. by apply enter_missing.
  - unfold read_cell. by apply enter_missing.
  - unfold read_cell_a1. by apply enter_missing.
  - unfold read_range. by apply enter_missing.
Qed.

Lemma unknown_sheet_is_refused_witness :
  classify (ValueError (SheetDoesNotExist "Data")) = Some UnknownSheetError
  ∧ write_data "Data" [[PyInt 1]] 1 Workbook_new
    = (Raise (ValueError (SheetDoesNotExist "Data")), Workbook_new)
  ∧ write_cell (H := lenient) "Data" 1 (ColInt 1) (PyInt 1) None Workbook_new
    = (Raise (ValueError (SheetDoesNotExist "Data")), Workbook_new)
  ∧ write_cell_a1 (H := lenient) "Data" "A1" (PyInt 1) None Workbook_new
    = (Raise (ValueError (SheetDoesNotExist "Data")), Workbook_new)
  ∧ read_cell "Data" 1 (ColInt 1) Workbook_new
    = (Raise (ValueError (SheetDoesNotExist "Data")), Workbook_new)
  ∧ read_cell_a1 "Data" "A1" Workbook_new
    = (Raise (ValueError (SheetDoesNotExist "Data")), Workbook_new)
  ∧ read_range "Data" 1 (ColInt 1) 2 (ColInt 2) Workbook_new
    = (Raise (ValueError (SheetDoesNotExist "Data")), Workbook_new).
Proof.
  apply (unknown_sheet_is_refused (H := lenient) Workbook_new "Data" "A1" 1 1 2
           (ColInt 1) (ColInt 1) (ColInt 2) (PyInt 1) None [[PyInt 1]]).
  intros Hin. apply list_elem_of_singleton in Hin. discriminate Hin.
Defined.

(** ** Reading changes no value *)

Lemma entered_keeps_values {A} (s : string) (e : exn) (k : nat → St Workbook A)
    (w : Workbook) :
  (∀ i, same_workbook_values w (snd (k i w))) →
  same_workbook_values w
    (snd ((names ← gets sheetnames;
           if negb (bool_decide (s ∈ names)) then raise e
           else ws ← wb_getitem s; k ws) w)).
Proof.
  intros Hk. destruct (decide (s ∈ sheetnames w)) as [Hin | Hnin].
  - destruct (sheet_at_intro s w Hin) as (i & sheet & Hat).
    rewrite (enter_sheet s w i sheet e k Hat). apply Hk.
  - rewrite (enter_missing s w e k Hnin). apply same_workbook_values_refl.
Qed.

Lemma read_cell_same_values (s : string) (r : Z) (col : column_arg) (w : Workbook) :
  same_workbook_values w (snd (read_cell s r col w)).
Proof.
  unfold read_cell. apply entered_keeps_values. intros i.
  destruct (checked_column_cases r col w) as [(c & _ & _ & _ & Hc) | (m & Hc)].
  - rewrite (bind_ok _ _ _ _ _ Hc). apply on_sheet_keeps_values.
    apply keeps_values_visit. intros cell. by apply keeps_values_pure.
  - rewrite (bind_raise _ _ _ _ _ Hc). apply same_workbook_values_refl.
Qed.

Lemma read_cell_a1_same_values (s ref : string) (w : Workbook) :
  same_workbook_values w (snd (read_cell_a1 s ref w)).
Proof.
  unfold read_cell_a1. apply entered_keeps_values. intros i.
  apply on_sheet_keeps_values. apply keeps_values_bind.
  - apply keeps_values_ws_getitem.
  - apply keeps_values_item_get_value.
Qed.

Lemma read_range_same_values (s : string) (sr er : Z) (sc ec : column_arg) (w : Workbook) :
  same_workbook_values w (snd (read_range s sr sc er ec w)).
Proof.
  unfold read_range. apply entered_keeps_values. intros i.
  destruct (checked_range_cases sr er sc ec w)
    as [(c1 & c2 & Hc & _) | (m & Hc & _)].
  - rewrite (bind_ok _ _ _ _ _ Hc). apply on_sheet_keeps_values.
    apply keeps_values_iter_rows, keeps_values_the_value.
  - rewrite (bind_raise _ _ _ _ _ Hc). apply same_workbook_values_refl.
Qed.

(** X2.  No read operation changes a value or the list of sheets: after
    ReadCell, ReadCellByReference or ReadRange, whether it returned or
    raised, the workbook lists the same sheets and holds the same value at
    every cell of every sheet. *)
Theorem reads_keep_the_values (w : Workbook) (s ref : string) (r sr er : Z)
    (col sc ec : column_arg) :
  same_workbook_values w (snd (read_cell s r col w))
  ∧ same_workbook_values w (snd (read_cell_a1 s ref w))
  ∧ same_workbook_values w (snd (read_range s sr sc er ec w)).
Proof.
  split_and!.
  - apply read_cell_same_values.
  - apply read_cell_a1_same_values.
  - apply read_range_same_values.
Qed.

(** ** What a cell write does *)

Section CellWrites.
Context `{Engine}.

Lemma write_tail_outcome (r c : Z) (v : pyvalue) (fmt : option string) (ws : Worksheet) :
  (set_value (r, c) v;;
   match fmt with
   | Some f =>
       try_except (set_number_format (r, c) f) is_ValueError
         (λ e, raise (ValueError (InvalidNumberFormat f (str e))))
   | None => mret tt
   end;;
   set_border (r, c) thin_border) (touch (r, c) ws)
  = cell_write (r, c) v fmt ws.
Proof.
  unfold cell_write. destruct fmt as [f|].
  - destruct (number_format_ok f) eqn:Hok.
    + apply (write_tail r c v (Some f) ws). by intros f' [= <-].
    + by apply write_tail_refused.
  - by apply (write_tail r c v None ws).
Qed.

Lemma write_cell_outcome (s : string) (r : Z) (column : column_arg) (c : Z) (v : pyvalue)
    (fmt : option string) (w : Workbook) (i : nat) (sheet : Worksheet) :
  sheet_at s w i sheet → resolve_column column = Ok c → 1 ≤ r → 1 ≤ c →
  write_cell s r column v fmt w
  = (fst (cell_write (r, c) v (given fmt) sheet),
     <[i := snd (cell_write (r, c) v (given fmt) sheet)]> w).
Proof.
  intros Hat Hres Hr Hc. unfold write_cell.
  rewrite (enter_sheet s w i sheet _ _ Hat).
  rewrite (bind_ok _ _ _ _ _ (checked_column_ok r column c w Hres Hr Hc)).
  rewrite (on_sheet_at _ w i sheet (proj2 (proj2 Hat))).
  rewrite (bind_ok _ _ _ _ _ (ws_cell_touch r c sheet Hr Hc)).
  by rewrite (write_tail_outcome r c v (given fmt) sheet).
Qed.

Lemma write_cell_a1_outcome (s ref : string) (r c : Z) (v : pyvalue)
    (fmt : option string) (w : Workbook) (i : nat) (sheet : Worksheet) :
  sheet_at s w i sheet → cell_of_reference ref = Some (r, c) →
  write_cell_a1 s ref v fmt w
  = (fst (cell_write (r, c) v (given fmt) sheet),
     <[i := snd (cell_write (r, c) v (given fmt) sheet)]> w).
Proof.
  intros Hat Href. unfold write_cell_a1.
  rewrite (enter_sheet s w i sheet _ _ Hat).
  rewrite (on_sheet_at _ w i sheet (proj2 (proj2 Hat))).
  rewrite (bind_ok _ _ _ _ _
             (try_except_ok _ _ _ _ _ _ (ws_getitem_cell ref r c sheet Href))).
  cbn [item_set_value item_set_number_format item_set_border].
  by rewrite (write_tail_outcome r c v (given fmt) sheet).
Qed.

Lemma title_cell_write (coord : Z * Z) (v : pyvalue) (fmt : option string)
    (ws : Worksheet) :
  title (snd (cell_write coord v fmt ws)) = title ws.
Proof.
  unfold cell_write. destruct fmt as [f|]; [destruct (number_format_ok f) |]; done.
Qed.


End CellWrites.



(** ** The cells that [write_data] stores *)







(** ** References that denote no single cell *)

Lemma ws_getitem_cell_ref (key : string) (ws ws' : Worksheet) (coord : Z * Z) :
  ws_getitem key ws = (Ok (ItemCell coord), ws') → cell_of_reference key = Some coord.
Proof.
  unfold ws_getitem, cell_of_reference. intros Hget.
  apply bind_inv in Hget as [(e0 & _ & ?) | ([[[min_col min_row] max_col] max_row] & s1 & Hb & Hk)];
    [done |].
  unfold lift in Hb. injection Hb as -> <-.
  destruct (negb _); [done |].
  destruct min_row as [r|]; [destruct min_col as [c|] |].
  - destruct (contains_colon key); cbn [negb] in Hk.
    + unfold fmap, St_fmap in Hk.
      by destruct (iter_rows _ _ _ _ _ ws) as [[rows | e0] s2].
    + unfold fmap, St_fmap in Hk. rewrite get_cell_touch in Hk. by simplify_eq.
  - rewrite bind_gets in Hk.
    apply bind_inv in Hk as [(e0 & _ & ?) | (rows & s2 & _ & Hk)]; [done |].
    by destruct (bool_decide _).
  - apply bind_inv in Hk as [(e0 & _ & ?) | (cols & s2 & _ & Hk)]; [done |].
    by destruct (bool_decide _).
Qed.

Lemma write_cell_a1_no_cell `{Engine} (s ref : string) (v : pyvalue)
    (fmt : option string) (w : Workbook) :
  cell_of_reference ref = None →
  (∃ e, fst (write_cell_a1 s ref v fmt w) = Raise e)
  ∧ same_workbook_values w (snd (write_cell_a1 s ref v fmt w)).
Proof.
  intros Href. destruct (decide (s ∈ sheetnames w)) as [Hin | Hnin].
  - destruct (sheet_at_intro s w Hin) as (i & sheet & Hat).
    pose proof (proj2 (proj2 Hat)) as Hl.
    unfold write_cell_a1. rewrite (enter_sheet s w i sheet _ _ Hat).
    rewrite (on_sheet_at _ w i sheet Hl).
    destruct (ws_getitem ref sheet) as [[it | e0] sheet1] eqn:Hget.
    + rewrite (bind_ok _ _ _ _ _ (try_except_ok _ _ _ _ _ _ Hget)).
      destruct it as [coord | coords | rows].
      { apply ws_getitem_cell_ref in Hget. congruence. }
      all: rewrite (bind_raise _ _ sheet1 sheet1
                      (AttributeError (TupleHasNoAttribute "value"))) by done;
        cbn [fst snd]; split; [eauto |];
        apply (same_workbook_values_insert w i sheet sheet1 Hl);
        by apply (keeps_values_ws_getitem ref sheet _ sheet1 Hget).
    + apply ws_getitem_raise in Hget as Hsame. subst sheet1.
      assert (∃ e1, (try_except (ws_getitem ref) is_ValueError_or_KeyError
                       (λ e, raise (ValueError (InvalidCellReference ref (str e))))) sheet
                    = (Raise e1, sheet)) as (e1 & Htry).
      { unfold try_except. rewrite Hget.
        destruct (is_ValueError_or_KeyError e0); eexists; reflexivity. }
      rewrite (bind_raise _ _ _ _ _ Htry). cbn [fst snd].
      rewrite (list_insert_id w i sheet Hl). split; [eauto | apply same_workbook_values_refl].
  - unfold write_cell_a1. rewrite (enter_missing s w _ _ Hnin). cbn [fst snd].
    split; [eauto | apply same_workbook_values_refl].
Qed.




(** ** What a write leaves alone *)




Lemma write_cell_sheetnames `{Engine} (s : string) (r : Z) (column : column_arg)
    (v : pyvalue) (fmt : option string) (w : Workbook) :
  sheetnames (snd (write_cell s r column v fmt w)) = sheetnames w.
Proof.
  destruct (decide (s ∈ sheetnames w)) as [Hin | Hnin].
  - destruct (sheet_at_intro s w Hin) as (i & sheet & Hat).
    destruct (checked_column_cases r column w) as [(c & Hres & Hr & Hc & Hchk) | (m & Hchk)].
    + rewrite (write_cell_outcome s r column c v fmt w i sheet Hat Hres Hr Hc). cbn [snd].
      apply (sheetnames_insert w i sheet); [apply Hat | apply title_cell_write].
    + unfold write_cell. rewrite (enter_sheet s w i sheet _ _ Hat).
      by rewrite (bind_raise _ _ _ _ _ Hchk).
  - unfold write_cell. by rewrite (enter_missing s w _ _ Hnin).
Qed.

Lemma write_cell_a1_sheetnames `{Engine} (s ref : string) (v : pyvalue)
    (fmt : option string) (w : Workbook) :
  sheetnames (snd (write_cell_a1 s ref v fmt w)) = sheetnames w.
Proof.
  destruct (cell_of_reference ref) as [[r c]|] eqn:Href.
  - destruct (decide (s ∈ sheetnames w)) as [Hin | Hnin].
    + destruct (sheet_at_intro s w Hin) as (i & sheet & Hat).
      rewrite (write_cell_a1_outcome s ref r c v fmt w i sheet Hat Href). cbn [snd].
      apply (sheetnames_insert w i sheet); [apply Hat | apply title_cell_write].
    + unfold write_cell_a1. by rewrite (enter_missing s w _ _ Hnin).
  - by destruct (write_cell_a1_no_cell s ref v fmt w Href) as [_ [Hn _]].
Qed.




(** ** [write_data] and the reads *)







(** ** When [write_data] fails *)




(** ** Style and format of a written cell *)





(** X10.  Every column number has letters that do the same.  For each
    column number c from 1 to 18278 the engine spells letters (A for 1, ...,
    ZZZ for 18278), and WriteCell, ReadCell and ReadRange (as start column
    and as end column) called with those letters give the same result and
    the same workbook as called with c, whatever the other arguments are. *)
Theorem column_letters_do_as_the_number `{Engine} (w : Workbook) (s : string)
    (r sr er c : Z) (other : column_arg) (v : pyvalue) (fmt : option string) :
  1 ≤ c ≤ 18278 →
  ∃ letters,
    get_column_letter c = Ok letters
    ∧ write_cell s r (ColStr letters) v fmt w = write_cell s r (ColInt c) v fmt w
    ∧ read_cell s r (ColStr letters) w = read_cell s r (ColInt c) w
    ∧ read_range s sr (ColStr letters) er other w = read_range s sr (ColInt c) er other w
    ∧ read_range s sr other er (ColStr letters) w = read_range s sr other er (ColInt c) w.
Proof.
  intros Hc. destruct (column_letters_round_trip c Hc) as (letters & Hletters & Hback).
  exists letters. split; [done |].
  assert (resolve_column (ColStr letters) = resolve_column (ColInt c)) as Heq by done.
  unfold write_cell, read_cell, read_range, checked_column, checked_range.
  by rewrite Heq.
Qed.

Lemma column_letters_do_as_the_number_witness :
  ∃ letters,
    get_column_letter 28 = Ok letters
    ∧ write_cell (H := lenient) "Sheet" 1 (ColStr letters) (PyInt 5) None Workbook_new
      = write_cell (H := lenient) "Sheet" 1 (ColInt 28) (PyInt 5) None Workbook_new
    ∧ read_cell "Sheet" 1 (ColStr letters) Workbook_new
      = read_cell "Sheet" 1 (ColInt 28) Workbook_new
    ∧ read_range "Sheet" 1 (ColStr letters) 2 (ColInt 30) Workbook_new
      = read_range "Sheet" 1 (ColInt 28) 2 (ColInt 30) Workbook_new
    ∧ read_range "Sheet" 1 (ColInt 30) 2 (ColStr letters) Workbook_new
      = read_range "Sheet" 1 (ColInt 30) 2 (ColInt 28) Workbook_new.
Proof.
  apply (column_letters_do_as_the_number (H := lenient) Workbook_new "Sheet" 1 1 2 28
           (ColInt 30) (PyInt 5) None).
  lia.
Defined.

(** ** The header row of [create_sheet] *)

Section HeaderRow.
Context `{Engine}.

Lemma head_cell_step (ws : nat) (col : Z) (header : string) (w : Workbook)
    (sheet : Worksheet) :
  w !! ws = Some sheet → 1 ≤ col ≤ 18278 →
  on_sheet ws (
    cell ← ws_cell 1 col;
    set_value cell (PyStr header);;
    set_font cell {| bold := true |};;
    set_fill cell {| start_color := "CCCCCC"; end_color := "CCCCCC";
                     fill_type := "solid" |};;
    set_alignment cell {| horizontal := "center" |};;
    set_border cell thin_border;;
    letter ← lift (get_column_letter col);
    set_column_width letter 15) w
  = (Ok tt, <[ws := head_cell col header sheet]> w).
Proof.
  intros Hl Hcol. rewrite (on_sheet_at _ w ws sheet Hl).
  rewrite (bind_ok _ _ _ _ _ (ws_cell_touch 1 col sheet ltac:(lia) ltac:(lia))).
  unfold head_cell, letter_of, get_column_letter.
  assert ((1 <=? col) && (col <=? 18278) = true) as ->.
  { apply andb_true_iff. split; apply Z.leb_le; lia. }
  unfold set_value, set_font, set_fill, set_alignment, set_border, set_column_width.
  st_unfold. cbn. do 2 f_equal.
  unfold touch, cell_at, styled.
  destruct (cells sheet !! (1, col)) as [c0|] eqn:Hc0; cbn.
  - rewrite <- (insert_id (cells sheet) (1, col) c0 Hc0) at 1.
    by rewrite !alter_insert_eq.
  - by rewrite !alter_insert_eq.
Qed.

Lemma head_row_loop (labels : list string) (col : Z) (w : Workbook) (ws : nat)
    (sheet : Worksheet) :
  w !! ws = Some sheet → 1 ≤ col → col + Z.of_nat (length labels) - 1 ≤ 18278 →
  for_each (enumerate labels col) (λ '(col, header),
    on_sheet ws (
      cell ← ws_cell 1 col;
      set_value cell (PyStr header);;
      set_font cell {| bold := true |};;
      set_fill cell {| start_color := "CCCCCC"; end_color := "CCCCCC";
                       fill_type := "solid" |};;
      set_alignment cell {| horizontal := "center" |};;
      set_border cell thin_border;;
      letter ← lift (get_column_letter col);
      set_column_width letter 15)) w
  = (Ok tt, <[ws := head_row col labels sheet]> w).
Proof.
  revert col w sheet. induction labels as [|header rest IH]; intros col w sheet Hl Hcol Hmax.
  - cbn. by rewrite (list_insert_id w ws sheet Hl).
  - cbn [enumerate for_each length head_row] in *.
    rewrite (bind_ok _ _ _ _ _ (head_cell_step ws col header w sheet Hl ltac:(lia))).
    rewrite (IH (col + 1) (<[ws := head_cell col header sheet]> w) (head_cell col header sheet));
      [| apply list_lookup_insert_eq; by eapply lookup_lt_Some | lia | lia].
    by rewrite list_insert_insert_eq.
Qed.


End HeaderRow.







Lemma find_sheet_app (s : string) (w : Workbook) (sheet : Worksheet) :
  s ∉ sheetnames w → title sheet = s → find_sheet s (app w [sheet]) = Some (length w).
Proof.
  intros Hnin Ht. induction w as [|ws rest IH].
  - cbn. by rewrite bool_decide_true.
  - cbn. cbn in Hnin. apply not_elem_of_cons in Hnin as [Hne Hrest].
    rewrite bool_decide_false by done. by rewrite (IH Hrest).
Qed.

Lemma sheet_at_app (s : string) (w : Workbook) (sheet : Worksheet) :
  s ∉ sheetnames w → title sheet = s → sheet_at s (app w [sheet]) (length w) sheet.
Proof.
  intros Hnin Ht. split_and!.
  - unfold sheetnames. rewrite fmap_app. apply elem_of_app. right. cbn. rewrite Ht.
    apply list_elem_of_here.
  - by apply find_sheet_app.
  - by rewrite list_lookup_middle.
Qed.

Lemma create_sheet_outcome `{Engine} (w : Workbook) (n t : string)
    (headers : option (list string)) :
  n ∉ sheetnames w → bind_title (sheetnames w) n = Ok t →
  Z.of_nat (length (default [] headers)) ≤ 18278 →
  create_sheet n headers w
  = (Ok (length w), app w [head_row 1 (default [] headers) (new_worksheet t)]).
Proof.
  intros Hnin Hbind Hcount. unfold create_sheet.
  rewrite bind_gets, (bool_decide_false _ Hnin).
  assert (wb_create_sheet n w = (Ok (length w), app w [new_worksheet t])) as Hnew.
  { unfold wb_create_sheet. rewrite bind_gets. st_unfold. by rewrite Hbind. }
  rewrite (bind_ok _ _ _ _ _ Hnew).
  destruct headers as [[|label labels] |]; try done.
  cbv beta iota.
  rewrite (bind_ok _ _ _ _ _
             (head_row_loop (label :: labels) 1 (app w [new_worksheet t]) (length w)
                (new_worksheet t) ltac:(by rewrite list_lookup_middle) ltac:(lia)
                ltac:(cbn in Hcount |- *; lia))).
  cbn [default]. unfold mret, St_ret. f_equal.
  rewrite insert_app_r_alt by lia. by rewrite Nat.sub_diag.
Qed.








(** ** The scripts: [example_usage], [main], [usage.py] *)

Lemma insert_last (w : Workbook) (sheet sheet' : Worksheet) :
  <[length w := sheet']> (app w [sheet]) = app w [sheet'].
Proof. rewrite insert_app_r_alt by lia. by rewrite Nat.sub_diag. Qed.

Lemma block_same_values (ws ws' : Worksheet) (sr er c1 c2 : Z) :
  same_values ws ws' → block ws' sr er c1 c2 = block ws sr er c1 c2.
Proof.
  intros [_ Hv]. unfold block. apply list_fmap_ext. intros _ r _.
  apply list_fmap_ext. intros _ c _. apply Hv.
Qed.

Section OnTheLastSheet.
Context `{Engine}.
Variables (w : Workbook) (s : string).
Hypothesis Hnew : s ∉ sheetnames w.

Lemma write_cell_last (sheet : Worksheet) (r : Z) (column : column_arg) (c : Z)
    (v : pyvalue) (fmt : option string) :
  title sheet = s → resolve_column column = Ok c → 1 ≤ r → 1 ≤ c →
  (∀ f, given fmt = Some f → number_format_ok f = true) →
  write_cell s r column v fmt (app w [sheet])
  = (Ok tt, app w [store (r, c) v (given fmt) sheet]).
Proof.
  intros Ht Hres Hr Hc Hfmt.
  rewrite (write_cell_ok s r column c v fmt _ _ _ (sheet_at_app s w sheet Hnew Ht))
    by done.
  by rewrite insert_last.
Qed.

Lemma write_cell_a1_last (sheet : Worksheet) (ref : string) (r c : Z)
    (v : pyvalue) (fmt : option string) :
  title sheet = s → cell_of_reference ref = Some (r, c) →
  (∀ f, given fmt = Some f → number_format_ok f = true) →
  write_cell_a1 s ref v fmt (app w [sheet])
  = (Ok tt, app w [store (r, c) v (given fmt) sheet]).
Proof.
  intros Ht Href Hfmt.
  rewrite (write_cell_a1_ok s ref r c v fmt _ _ _ (sheet_at_app s w sheet Hnew Ht))
    by done.
  by rewrite insert_last.
Qed.

Lemma read_cell_last (sheet : Worksheet) (r : Z) (column : column_arg) (c : Z) :
  title sheet = s → resolve_column column = Ok c → 1 ≤ r → 1 ≤ c →
  read_cell s r column (app w [sheet])
  = (Ok (cell_value (r, c) sheet), app w [touch (r, c) sheet]).
Proof.
  intros Ht Hres Hr Hc.
  rewrite (read_cell_ok s r column c _ _ _ (sheet_at_app s w sheet Hnew Ht)) by done.
  by rewrite insert_last.
Qed.

Lemma read_cell_a1_last (sheet : Worksheet) (ref : string) (r c : Z) :
  title sheet = s → cell_of_reference ref = Some (r, c) →
  read_cell_a1 s ref (app w [sheet])
  = (Ok (cell_value (r, c) sheet), app w [touch (r, c) sheet]).
Proof.
  intros Ht Href.
  rewrite (read_cell_a1_ok s ref r c _ _ _ (sheet_at_app s w sheet Hnew Ht)) by done.
  by rewrite insert_last.
Qed.

Lemma read_range_last (sheet : Worksheet) (sr er c1 c2 : Z) (sc ec : column_arg) :
  title sheet = s → 1 ≤ sr → sr ≤ er →
  resolve_column sc = Ok c1 → resolve_column ec = Ok c2 → 1 ≤ c1 → c1 ≤ c2 →
  ∃ sheet', read_range s sr sc er ec (app w [sheet])
            = (Ok (block sheet sr er c1 c2), app w [sheet'])
            ∧ same_values sheet sheet'.
Proof.
  intros Ht Hsr Her Hsc Hec Hc1 Hc2.
  destruct (read_range_ok s sr er c1 c2 sc ec _ _ _ (sheet_at_app s w sheet Hnew Ht))
    as (sheet' & Hread & Hsame); try done.
  exists sheet'. split; [| done]. by rewrite Hread, insert_last.
Qed.

End OnTheLastSheet.

(** What the statements of the scripts do to a workbook that has no sheet
    "データ" yet, on an engine that keeps the title and takes the format. *)
Lemma statements_outcome `{Engine} (w : Workbook) :
  "データ" ∉ sheetnames w → bind_title (sheetnames w) "データ" = Ok "データ" →
  number_format_ok "#,##0" = true →
  ∃ sheet,
    statements w
    = (Ok [[PyInt 1; PyStr "サンプル1"; PyInt 1000];
           [PyInt 2; PyStr "サンプル2"; PyInt 2000]],
       app w [sheet])
    ∧ title sheet = "データ"
    ∧ block sheet 1 3 1 3
      = [[PyStr "ID"; PyStr "名前"; PyStr "値"];
         [PyInt 1; PyStr "サンプル1"; PyInt 1000];
         [PyInt 2; PyStr "サンプル2"; PyInt 2000]].
Proof.
  intros Hnew Hbind Hok. unfold statements.
  assert (∀ f, given (Some "#,##0") = Some f → number_format_ok f = true) as Hfmt.
  { by intros f [= <-]. }
  assert (∀ f, given None = Some f → number_format_ok f = true) as Hnone by done.
  pose proof (create_sheet_outcome w "データ" "データ" (Some ["ID"; "名前"; "値"])
                Hnew Hbind ltac:(cbn; lia)) as H0.
  rewrite (bind_ok _ _ _ _ _ H0).
  let step lemma :=
    match goal with
    | |- context [app w [?sheet]] =>
        let Hstep := fresh "Hstep" in
        let done_step := lemma sheet in
        pose proof done_step as Hstep;
        rewrite (bind_ok _ _ _ _ _ Hstep); clear Hstep
    end in
  step ltac:(fun sheet => constr:(
    write_cell_last w "データ" Hnew sheet 2 (ColInt 1) 1 (PyInt 1) None
      eq_refl eq_refl ltac:(lia) ltac:(lia) Hnone));
  step ltac:(fun sheet => constr:(
    write_cell_last w "データ" Hnew sheet 2 (ColStr "B") 2 (PyStr "サンプル1") None
      eq_refl eq_refl ltac:(lia) ltac:(lia) Hnone));
  step ltac:(fun sheet => constr:(
    write_cell_last w "データ" Hnew sheet 2 (ColInt 3) 3 (PyInt 1000) (Some "#,##0")
      eq_refl eq_refl ltac:(lia) ltac:(lia) Hfmt));
  step ltac:(fun sheet => constr:(
    write_cell_a1_last w "データ" Hnew sheet "A3" 3 1 (PyInt 2) None
      eq_refl eq_refl Hnone));
  step ltac:(fun sheet => constr:(
    write_cell_a1_last w "データ" Hnew sheet "B3" 3 2 (PyStr "サンプル2") None
      eq_refl eq_refl Hnone));
  step ltac:(fun sheet => constr:(
    write_cell_a1_last w "データ" Hnew sheet "C3" 3 3 (PyInt 2000) (Some "#,##0")
      eq_refl eq_refl Hfmt));
  step ltac:(fun sheet => constr:(
    read_cell_last w "データ" Hnew sheet 2 (ColInt 1) 1
      eq_refl eq_refl ltac:(lia) ltac:(lia)));
  step ltac:(fun sheet => constr:(
    read_cell_a1_last w "データ" Hnew sheet "B2" 2 2 eq_refl eq_refl)).
  match goal with
  | |- context [read_range _ _ _ _ _ (app w [?sheet])] =>
      destruct (read_range_last w "データ" Hnew sheet 2 3 1 3 (ColStr "A") (ColStr "C")
                  eq_refl ltac:(lia) ltac:(lia) eq_refl eq_refl ltac:(lia) ltac:(lia))
        as (sheet' & Hread & Hsame);
      pose proof (block_same_values sheet sheet' 1 3 1 3 Hsame) as Hblock
  end.
  exists sheet'. split_and!.
  - rewrite Hread. reflexivity.
  - by destruct Hsame as [-> _].
  - rewrite Hblock. reflexivity.
Qed.

(** A run of the statements that returns has the sheet "データ" in the
    workbook it hands to [save]. *)
Lemma statements_list_the_sheet `{Engine} (w w' : Workbook)
    (range_data : list (list pyvalue)) :
  statements w = (Ok range_data, w') → "データ" ∈ sheetnames w'.
Proof.
  unfold statements. intros Hrun.
  apply bind_inv in Hrun as [(e & _ & ?) | (i & w1 & _ & Hrun)]; [done |].
  assert ("データ" ∈ sheetnames w1) as Hin.
  { destruct (decide ("データ" ∈ sheetnames w1)) as [Hin | Hnin]; [done |].
    apply bind_inv in Hrun as [(e & _ & ?) | (u & w2 & Hw & _)]; [done |].
    unfold write_cell in Hw. by rewrite (enter_missing _ w1 _ _ Hnin) in Hw. }
  cbv beta in Hrun.
  repeat match type of Hrun with
  | (?m ≫= _) ?w0 = _ =>
      apply bind_inv in Hrun as [(? & _ & ?) | (? & w2 & Hw & Hrun)]; [done |];
      cbv beta in Hrun;
      apply (f_equal snd) in Hw; cbn [snd] in Hw; subst w2;
      lazymatch m with
      | write_cell ?s ?r ?col ?v ?fmt =>
          rewrite <- (write_cell_sheetnames s r col v fmt w0) in Hin
      | write_cell_a1 ?s ?ref ?v ?fmt =>
          rewrite <- (write_cell_a1_sheetnames s ref v fmt w0) in Hin
      | read_cell ?s ?r ?col =>
          rewrite <- (proj1 (read_cell_same_values s r col w0)) in Hin
      | read_cell_a1 ?s ?ref =>
          rewrite <- (proj1 (read_cell_a1_same_values s ref w0)) in Hin
      end
  end.
  apply (f_equal snd) in Hrun. cbn [snd] in Hrun. subst w'.
  by rewrite (proj1 (read_range_same_values _ _ _ _ _ _)).
Qed.

(** X14.  Runs that end before anything is saved.  When the file holds
    content the engine cannot load, or a workbook that already has the sheet
    "データ", main exits with status 1 and leaves every file as it was, on
    every engine and every disk: in the first case it prints one line, the
    error with the load-error message; in the second the line that the file
    was loaded and then the error that the sheet already exists.  Under the
    same conditions the script usage.py ends with the same exception and
    saves nothing. *)
Theorem main_ends_before_saving `{Engine} `{Disk} (fs : files) (file : string)
    (stored : result Workbook) :
  fs !! file = Some stored →
  match stored with Ok w0 => "データ" ∈ sheetnames w0 | Raise _ => True end →
  let e := match stored with
           | Ok _ => ValueError (SheetAlreadyExists "データ")
           | Raise e0 => Exception (FileLoadError (str e0))
           end in
  main file fs
  = (1,
     match stored with
     | Ok _ => [LoadedExisting file; ErrorLine (inl (str e))]
     | Raise _ => [ErrorLine (inl (str e))]
     end,
     fs)
  ∧ (file = "sample.xlsx" → raised (usage fs) = Some (Py e) ∧ disk (usage fs) = fs).
Proof.
  intros Hfile Hin. destruct stored as [w0 | e0]; cbn zeta.
  - assert (statements w0 = (Raise (ValueError (SheetAlreadyExists "データ")), w0)) as Hrun.
    { unfold statements. apply bind_raise. by apply create_sheet_listed. }
    split.
    + unfold main, example_usage, __init__, opening_line. rewrite Hfile. cbn [wb].
      by rewrite Hrun.
    + intros ->. unfold usage, __init__. rewrite Hfile. cbn [wb]. by rewrite Hrun.
  - split.
    + unfold main, example_usage, __init__. by rewrite Hfile.
    + intros ->. unfold usage, __init__. by rewrite Hfile.
Qed.

Lemma main_ends_before_saving_witness :
  let e := ValueError (SheetAlreadyExists "データ") in
  main (H := lenient) (H0 := storing) "sample.xlsx"
    {["sample.xlsx" := Ok [new_worksheet "Sheet"; new_worksheet "データ"]]}
  = (1, [LoadedExisting "sample.xlsx"; ErrorLine (inl (str e))],
     {["sample.xlsx" := Ok [new_worksheet "Sheet"; new_worksheet "データ"]]})
  ∧ ("sample.xlsx" = "sample.xlsx" →
     raised (usage (H := lenient) (H0 := storing)
               {["sample.xlsx" := Ok [new_worksheet "Sheet"; new_worksheet "データ"]]})
     = Some (Py e)
     ∧ disk (usage (H := lenient) (H0 := storing)
               {["sample.xlsx" := Ok [new_worksheet "Sheet"; new_worksheet "データ"]]})
       = {["sample.xlsx" := Ok [new_worksheet "Sheet"; new_worksheet "データ"]]}).
Proof.
  apply (main_ends_before_saving (H := lenient) (H0 := storing)
           {["sample.xlsx" := Ok [new_worksheet "Sheet"; new_worksheet "データ"]]}
           "sample.xlsx" (Ok [new_worksheet "Sheet"; new_worksheet "データ"])).
  - apply lookup_singleton_eq.
  - cbn. apply list_elem_of_further, list_elem_of_here.
Defined.

(** X15.  A run on a workbook without the sheet "データ".  When the file
    does not exist or holds a workbook without that sheet, the engine keeps
    the title and takes the format #,##0, the program prints the opening
    line and then the data it read back, [[1, サンプル1, 1000], [2, サンプル2,
    2000]], and hands to the disk the workbook it opened with one sheet
    added: the sheet "データ", whose rows 1 to 3 hold the headers ID, 名前, 値
    and the two data rows.  main exits with 0 when the disk stores the
    workbook; when the disk refuses with PermissionError it exits with 1
    after the error line of the facade that names the file (the message of
    the system is dropped); on any other OSError it exits with 1 after the
    save-failed line that quotes the message of the system. *)
Theorem main_writes_the_sample `{Engine} `{Disk} (fs : files) (file : string)
    (w0 : Workbook) :
  __init__ fs file = Ok {| filename := file; wb := w0 |} →
  "データ" ∉ sheetnames w0 → bind_title (sheetnames w0) "データ" = Ok "データ" →
  number_format_ok "#,##0" = true →
  ∃ sheet,
    title sheet = "データ"
    ∧ block sheet 1 3 1 3
      = [[PyStr "ID"; PyStr "名前"; PyStr "値"];
         [PyInt 1; PyStr "サンプル1"; PyInt 1000];
         [PyInt 2; PyStr "サンプル2"; PyInt 2000]]
    ∧ let out :=
        [opening_line fs file;
         ReadData [[PyInt 1; PyStr "サンプル1"; PyInt 1000];
                   [PyInt 2; PyStr "サンプル2"; PyInt 2000]]] in
      main file fs
      = match wb_save (app w0 [sheet]) file fs with
        | (None, fs') => (0, out, fs')
        | (Some (Os (PermissionError _)), fs') =>
            (1, app out [ErrorLine (inr (NoWritePermission file))], fs')
        | (Some (Os (OSError m)), fs') =>
            (1, app out [ErrorLine (inr (SaveFailed m))], fs')
        | (Some (Py e), fs') => (1, app out [ErrorLine (inl (str e))], fs')
        end.
Proof.
  intros Hopen Hnew Hbind Hok.
  destruct (statements_outcome w0 Hnew Hbind Hok) as (sheet & Hrun & Ht & Hblock).
  exists sheet. split_and!; [done | done |]. cbn zeta.
  unfold main, example_usage. rewrite Hopen. cbn [wb]. rewrite Hrun.
  unfold save. cbn [wb filename].
  by destruct (wb_save (app w0 [sheet]) file fs) as [[[e | [m | m]] |] fs'].
Qed.

Lemma main_writes_the_sample_witness :
  ∃ sheet,
    title sheet = "データ"
    ∧ block sheet 1 3 1 3
      = [[PyStr "ID"; PyStr "名前"; PyStr "値"];
         [PyInt 1; PyStr "サンプル1"; PyInt 1000];
         [PyInt 2; PyStr "サンプル2"; PyInt 2000]]
    ∧ let out :=
        [opening_line ∅ "book.xlsx";
         ReadData [[PyInt 1; PyStr "サンプル1"; PyInt 1000];
                   [PyInt 2; PyStr "サンプル2"; PyInt 2000]]] in
      main (H := lenient) (H0 := read_only) "book.xlsx" ∅
      = match wb_save (Disk := read_only) (app Workbook_new [sheet]) "book.xlsx" ∅ with
        | (None, fs') => (0, out, fs')
        | (Some (Os (PermissionError _)), fs') =>
            (1, app out [ErrorLine (inr (NoWritePermission "book.xlsx"))], fs')
        | (Some (Os (OSError m)), fs') =>
            (1, app out [ErrorLine (inr (SaveFailed m))], fs')
        | (Some (Py e), fs') => (1, app out [ErrorLine (inl (str e))], fs')
        end.
Proof.
  apply (main_writes_the_sample (H := lenient) (H0 := read_only) ∅ "book.xlsx" Workbook_new).
  - reflexivity.
  - intros Hin. apply list_elem_of_singleton in Hin. discriminate Hin.
  - reflexivity.
  - reflexivity.
Defined.

(** X16.  The program cannot be run twice on the same file.  On a disk
    that stores what it is given and on every engine: when a run of main
    on a file exits with 0, the next run on the same file exits with 1,
    after the line that the file was loaded and the error that the sheet
    "データ" already exists, and leaves the files as the first run left
    them. *)
Theorem a_second_run_fails `{Engine} (fs : files) (file : string) :
  fst (fst (main (H0 := storing) file fs)) = 0 →
  let fs' := snd (main (H0 := storing) file fs) in
  main (H0 := storing) file fs'
  = (1, [LoadedExisting file; ErrorLine (inl (SheetAlreadyExists "データ"))], fs').
Proof.
  unfold main at 1 2, example_usage.
  destruct (__init__ fs file) as [excel | e]; [| done].
  destruct (statements (wb excel)) as [[range_data | e] w1] eqn:Hrun; [| done].
  unfold save. cbn. intros _.
  assert (statements w1 = (Raise (ValueError (SheetAlreadyExists "データ")), w1)) as Hagain.
  { unfold statements. apply bind_raise. apply create_sheet_listed.
    by apply (statements_list_the_sheet (wb excel) w1 range_data). }
  unfold main, example_usage, __init__, opening_line.
  rewrite lookup_insert_eq. cbn [wb]. by rewrite Hagain.
Qed.

Lemma a_second_run_fails_witness :
  let fs' := snd (main (H := lenient) (H0 := storing) "book.xlsx" ∅) in
  main (H := lenient) (H0 := storing) "book.xlsx" fs'
  = (1, [LoadedExisting "book.xlsx"; ErrorLine (inl (SheetAlreadyExists "データ"))], fs').
Proof.
  apply (a_second_run_fails (H := lenient) ∅ "book.xlsx").
  reflexivity.
Defined.

(** ** When the single-cell operations succeed, and how they fail *)








